(** * Hatari printer byte sink (src/printer.c)

    A shallow embedding of the buffering, filtering and idle-close logic of
    [printer.c], and the properties of its specification checked against it.

    The module-global variables of the C file become the fields of [State];
    every C function becomes a function on [State].  What the C library and
    the configuration answer (does [fopen] succeed, how many items does
    [fwrite] report, is printing enabled) is not decided by this file: it is
    passed to each operation as an [Env].  What the code does to the host
    (fopen, fwrite, fclose, the message on stderr) is recorded, in order, in
    the [io_log] field.

    [Printer_Init] only prepares the name of the output file in the
    configuration and touches none of the variables below; it is left out.
    [nPrinterBufferCharsOnLine] and [nIdleCount] are C [int]s and
    [nPrinterBufferChars] is a [size_t]: they are integers in [Z], and every
    increment goes through the wrap-around of its type. *)

From Stdlib Require Import ZArith Lia Bool.
From Stdlib Require String.
From stdpp Require Import base tactics list.
Import String.StringSyntax.
Delimit Scope string_scope with string.

Open Scope Z_scope.

(** ** C integer types *)

Module CInt.

(** [int] is 32 bits wide.  The C standard leaves signed overflow
    undefined; the model takes what the two's complement code emitted for
    [x++] does, and wraps around. *)
Definition INT_MIN : Z := - 2 ^ 31.
Definition INT_MAX : Z := 2 ^ 31 - 1.
Definition wrap_int (z : Z) : Z := (z + 2 ^ 31) mod 2 ^ 32 - 2 ^ 31.

(** [size_t] is unsigned and 64 bits wide (LP64). *)
Definition wrap_size_t (z : Z) : Z := z mod 2 ^ 64.

(** [a % b] on [int]: C99 truncates the quotient towards zero, so the
    remainder has the sign of the dividend; this is [Z.rem]. *)
Definition c_rem (a b : Z) : Z := Z.rem a b.

End CInt.
Export CInt.

(** ** Constants ([#define]s of printer.c) *)

Definition PRINTER_TAB_SETTING : Z := 8.
Definition PRINTER_IDLE_CLOSE : Z := 4 * 50.
Definition PRINTER_BUFFER_SIZE : Z := 2048.

(** ** The host side *)

(** One entry per call into the C library. *)
Inductive Event : Type :=
  | EvFopen (ok : bool)                   (* fopen(name, "a+"), and whether it gave a handle *)
  | EvFwrite (data : list Z) (ret : nat)  (* fwrite of [data]; [ret] items reported written *)
  | EvFclose                              (* fclose(PrinterFileHandle) *)
  | EvStderr.                             (* "ERROR not all chars were written" *)

(** What the surroundings answer during one operation. *)
Record Env : Type := mkEnv {
  bEnablePrinting : bool;          (* ConfigureParams.Printer.bEnablePrinting *)
  fopen_ok : bool;                 (* fopen returns a non-NULL handle *)
  fwrite_ret : list Z -> nat       (* return value of fwrite for these bytes *)
}.

(** ** The module state *)

Record State : Type := mkState {
  PrinterBuffer : list Z;              (* unsigned char PrinterBuffer[PRINTER_BUFFER_SIZE] *)
  nPrinterBufferChars : Z;             (* size_t *)
  nPrinterBufferCharsOnLine : Z;       (* int *)
  bConnectedPrinter : bool;
  bPrinterFile : bool;
  nIdleCount : Z;                      (* int *)
  io_log : list Event                  (* oldest first *)
}.

(** Statics are zero-initialised; the two flags are initialised to FALSE. *)
Definition Printer_initial : State :=
  mkState (replicate 2048 0) 0 0 false false 0 [].

(** Field assignments. *)
Definition set_PrinterBuffer (v : list Z) (s : State) : State :=
  mkState v (nPrinterBufferChars s) (nPrinterBufferCharsOnLine s)
          (bConnectedPrinter s) (bPrinterFile s) (nIdleCount s) (io_log s).
Definition set_nPrinterBufferChars (v : Z) (s : State) : State :=
  mkState (PrinterBuffer s) v (nPrinterBufferCharsOnLine s)
          (bConnectedPrinter s) (bPrinterFile s) (nIdleCount s) (io_log s).
Definition set_nPrinterBufferCharsOnLine (v : Z) (s : State) : State :=
  mkState (PrinterBuffer s) (nPrinterBufferChars s) v
          (bConnectedPrinter s) (bPrinterFile s) (nIdleCount s) (io_log s).
Definition set_bConnectedPrinter (v : bool) (s : State) : State :=
  mkState (PrinterBuffer s) (nPrinterBufferChars s) (nPrinterBufferCharsOnLine s)
          v (bPrinterFile s) (nIdleCount s) (io_log s).
Definition set_bPrinterFile (v : bool) (s : State) : State :=
  mkState (PrinterBuffer s) (nPrinterBufferChars s) (nPrinterBufferCharsOnLine s)
          (bConnectedPrinter s) v (nIdleCount s) (io_log s).
Definition set_nIdleCount (v : Z) (s : State) : State :=
  mkState (PrinterBuffer s) (nPrinterBufferChars s) (nPrinterBufferCharsOnLine s)
          (bConnectedPrinter s) (bPrinterFile s) v (io_log s).
Definition emit (ev : Event) (s : State) : State :=
  mkState (PrinterBuffer s) (nPrinterBufferChars s) (nPrinterBufferCharsOnLine s)
          (bConnectedPrinter s) (bPrinterFile s) (nIdleCount s) (io_log s ++ [ev]).

(** [PrinterBuffer[nPrinterBufferChars++] = Byte].  A store past the end of
    the array leaves the modelled array as it is (in C it lands outside the
    array); the counter is incremented all the same. *)
Definition store_and_advance (Byte : Z) (s : State) : State :=
  set_nPrinterBufferChars (wrap_size_t (nPrinterBufferChars s + 1))
    (set_PrinterBuffer
       (<[Z.to_nat (nPrinterBufferChars s) := Byte]> (PrinterBuffer s)) s).

(** The bytes waiting in the buffer: [PrinterBuffer[0 .. nPrinterBufferChars)]. *)
Definition buffered (s : State) : list Z :=
  take (Z.to_nat (nPrinterBufferChars s)) (PrinterBuffer s).

(** ** The functions of printer.c *)

(** [Printer_OpenFile] *)
Definition Printer_OpenFile (e : Env) (s : State) : bool * State :=
  let s1 := set_bPrinterFile true s in
  let s2 := emit (EvFopen (fopen_ok e)) s1 in
  let s3 := if negb (fopen_ok e) then set_bPrinterFile false s2 else s2 in
  (bPrinterFile s3, s3).

(** [Printer_CloseFile] *)
Definition Printer_CloseFile (s : State) : State :=
  if bPrinterFile s
  then set_bPrinterFile false (emit EvFclose s)
  else s.

(** [Printer_ResetInternalBuffer] *)
Definition Printer_ResetInternalBuffer (s : State) : State :=
  set_nPrinterBufferChars 0 s.

(** [Printer_ResetCharsOnLine] *)
Definition Printer_ResetCharsOnLine (s : State) : State :=
  set_nPrinterBufferCharsOnLine 0 s.

(** [Printer_EmptyFile] *)
Definition Printer_EmptyFile (e : Env) (s : State) : State :=
  if bPrinterFile s then
    let data := buffered s in
    let ret := fwrite_ret e data in
    let s1 := emit (EvFwrite data ret) s in
    let s2 := if Z.of_nat ret <? nPrinterBufferChars s then emit EvStderr s1 else s1 in
    Printer_ResetInternalBuffer s2
  else s.

(** [Printer_EmptyInternalBuffer] *)
Definition Printer_EmptyInternalBuffer (e : Env) (s : State) : bool * State :=
  if 0 <? nPrinterBufferChars s then
    (true, if bPrinterFile s then Printer_EmptyFile e s else s)
  else (false, s).

(** [Printer_CloseAllConnections] *)
Definition Printer_CloseAllConnections (e : Env) (s : State) : State :=
  let s1 := snd (Printer_EmptyInternalBuffer e s) in
  let s2 := Printer_CloseFile s1 in
  set_bConnectedPrinter false s2.

(** [Printer_UnInit] *)
Definition Printer_UnInit (e : Env) (s : State) : State :=
  Printer_CloseAllConnections e s.

(** [Printer_ValidByte] *)
Definition Printer_ValidByte (Byte : Z) : bool :=
  if (Byte =? 13) || (Byte =? 10) then true
  else if (32 <=? Byte) && (Byte <? 127) then true
  else if Byte =? 9 then true
  else false.

(** [Printer_AddByteToInternalBuffer] *)
Definition Printer_AddByteToInternalBuffer (e : Env) (Byte : Z) (s : State) : State :=
  let s1 := if nPrinterBufferChars s =? PRINTER_BUFFER_SIZE
            then snd (Printer_EmptyInternalBuffer e s) else s in
  let s2 := store_and_advance Byte s1 in
  if negb ((Byte =? 13) || (Byte =? 10))
  then set_nPrinterBufferCharsOnLine (wrap_int (nPrinterBufferCharsOnLine s2 + 1)) s2
  else s2.

(** The body of the [for] loop of [Printer_AddTabToInternalBuffer], run
    [k] times. *)
Fixpoint add_spaces (k : nat) (s : State) : State :=
  match k with
  | O => s
  | S k' =>
      let s1 := store_and_advance 32 s in
      add_spaces k'
        (set_nPrinterBufferCharsOnLine (wrap_int (nPrinterBufferCharsOnLine s1 + 1)) s1)
  end.

(** [NumSpaces] as [Printer_AddTabToInternalBuffer] computes it. *)
Definition NumSpaces (s : State) : Z :=
  PRINTER_TAB_SETTING - c_rem (nPrinterBufferCharsOnLine s) PRINTER_TAB_SETTING.

(** [Printer_AddTabToInternalBuffer]; [for (i = 0; i < NumSpaces; i++)]
    runs its body [Z.to_nat NumSpaces] times. *)
Definition Printer_AddTabToInternalBuffer (e : Env) (s : State) : State :=
  let s1 := if nPrinterBufferChars s >=? PRINTER_BUFFER_SIZE - PRINTER_TAB_SETTING
            then snd (Printer_EmptyInternalBuffer e s) else s in
  add_spaces (Z.to_nat (NumSpaces s1)) s1.

(** [Printer_TransferByteTo] *)
Definition Printer_TransferByteTo (e : Env) (Byte : Z) (s : State) : bool * State :=
  if negb (bEnablePrinting e) then (false, s)
  else
    let s1 :=
      if negb (bConnectedPrinter s) then
        let (r, s') := Printer_OpenFile e s in
        Printer_ResetCharsOnLine
          (Printer_ResetInternalBuffer (set_bConnectedPrinter r s'))
      else s in
    if bConnectedPrinter s1 then
      let s2 :=
        if Printer_ValidByte Byte then
          let s' := if Byte =? 9
                    then Printer_AddTabToInternalBuffer e s1
                    else Printer_AddByteToInternalBuffer e Byte s1 in
          if Byte =? 13 then set_nPrinterBufferCharsOnLine 0 s' else s'
        else s1 in
      (true, s2)
    else (false, s1).

(** [Printer_CheckIdleStatus] *)
Definition Printer_CheckIdleStatus (e : Env) (s : State) : State :=
  let (r, s1) := Printer_EmptyInternalBuffer e s in
  if r then set_nIdleCount 0 s1
  else
    let s2 := set_nIdleCount (wrap_int (nIdleCount s1 + 1)) s1 in
    if nIdleCount s2 >=? PRINTER_IDLE_CLOSE
    then set_nIdleCount 0 (Printer_CloseAllConnections e s2)
    else s2.

(** ** The operations of the sink, and runs of them *)

(** acceptByte, tick, flush, close and reset of the specification are
    [Printer_TransferByteTo], [Printer_CheckIdleStatus],
    [Printer_EmptyInternalBuffer], [Printer_CloseAllConnections] and the
    pair [Printer_ResetInternalBuffer]; [Printer_ResetCharsOnLine]. *)
Inductive Op : Type :=
  | OpAcceptByte (e : Env) (Byte : Z)
  | OpTick (e : Env)
  | OpFlush (e : Env)
  | OpClose (e : Env)
  | OpReset.

Definition reset (s : State) : State :=
  Printer_ResetCharsOnLine (Printer_ResetInternalBuffer s).

Definition step (o : Op) (s : State) : State :=
  match o with
  | OpAcceptByte e b => snd (Printer_TransferByteTo e b s)
  | OpTick e => Printer_CheckIdleStatus e s
  | OpFlush e => snd (Printer_EmptyInternalBuffer e s)
  | OpClose e => Printer_CloseAllConnections e s
  | OpReset => reset s
  end.

Fixpoint run (ops : list Op) (s : State) : State :=
  match ops with
  | [] => s
  | o :: ops' => run ops' (step o s)
  end.

(** The blocks handed to [fwrite], in order: one per flush that reached
    the destination. *)
Fixpoint flushed (log : list Event) : list (list Z) :=
  match log with
  | [] => []
  | EvFwrite data _ :: log' => data :: flushed log'
  | _ :: log' => flushed log'
  end.

Definition flush_count (s : State) : nat := length (flushed (io_log s)).

(** An environment in which printing is enabled, [fopen] succeeds and
    [fwrite] writes everything. *)
Definition env_ok : Env := mkEnv true true (fun data => length data).

(** ** Notions used in the statements *)

(** The byte classes of [Printer_ValidByte]: carriage return or line feed,
    and the printable characters 0x20..0x7E. *)
Definition is_line_break (Byte : Z) : Prop := Byte = 13 \/ Byte = 10.
Definition is_printable (Byte : Z) : Prop := 32 <= Byte <= 126.

(** What the byte does to the buffer and the column once the connection
    is there. *)
Definition buffer_byte (e : Env) (Byte : Z) (s : State) : State :=
  if Printer_ValidByte Byte then
    let s' := if Byte =? 9
              then Printer_AddTabToInternalBuffer e s
              else Printer_AddByteToInternalBuffer e Byte s in
    if Byte =? 13 then set_nPrinterBufferCharsOnLine 0 s' else s'
  else s.

(** A connection that is open, with nothing buffered and the column at 0:
    the state right after a connection has been made. *)
Definition connected_empty : State :=
  mkState (replicate 2048 0) 0 0 true true 0 [].

(** An open connection with [n] bytes 'A' buffered, at column [col]. *)
Definition connected_with (n col : Z) : State :=
  mkState (replicate 2048 65) n col true true 0 [].

(** What the specification calls the observable state. *)
Definition observable (s : State) : bool * Z * Z * bool :=
  (bConnectedPrinter s, nPrinterBufferChars s, nPrinterBufferCharsOnLine s, bPrinterFile s).

(** A sequence of bytes sent with the same surroundings. *)
Definition accept_all (e : Env) (bs : list Z) (s : State) : State :=
  run (map (OpAcceptByte e) bs) s.

(** Consecutive idle checks. *)
Definition ticks (es : list Env) (s : State) : State := run (map OpTick es) s.

(** What every run from [Printer_initial] keeps true: the file is open
    exactly when the printer is connected, and nothing is buffered while
    disconnected. *)
Definition sink_inv (s : State) : Prop :=
  bPrinterFile s = bConnectedPrinter s
  /\ 0 <= nPrinterBufferChars s
  /\ (bConnectedPrinter s = false -> nPrinterBufferChars s = 0).

(** An open connection in good order. *)
Definition open_ok (s : State) : Prop :=
  bConnectedPrinter s = true
  /\ bPrinterFile s = true
  /\ length (PrinterBuffer s) = 2048%nat
  /\ 0 <= nPrinterBufferChars s <= PRINTER_BUFFER_SIZE.

(** The run on which the bound breaks: 2^31 + 1 letters 'A' with no
    carriage return among them, an idle check, 2034 line feeds, one tab. *)
Definition overflow_run : list Op :=
  replicate (Z.to_nat (2 ^ 31 + 1)) (OpAcceptByte env_ok 65)
  ++ [OpTick env_ok]
  ++ replicate 2034 (OpAcceptByte env_ok 10)
  ++ [OpAcceptByte env_ok 9].

(** The column is a count in [s] and in every state the run [ops] passes
    through before its last operation. *)
Fixpoint column_counts (ops : list Op) (s : State) : Prop :=
  match ops with
  | [] => True
  | o :: ops' => 0 <= nPrinterBufferCharsOnLine s /\ column_counts ops' (step o s)
  end.

(** ** The file name ([Printer_Init]) *)

Definition PRINTER_FILENAME : String.string := "/hatari.prn"%string.

(** [Printer_Init].  [szPrintToFileName] is the name found in the
    configuration, [sizeof_name] the size of the array that holds it
    ([sizeof(ConfigureParams.Printer.szPrintToFileName)]) and [HOME] what
    [getenv] answers ([None] for NULL).  The result is the name left in the
    configuration. *)
Definition Printer_Init (sizeof_name : nat) (HOME : option String.string)
    (szPrintToFileName : String.string) : String.string :=
  if (String.length szPrintToFileName <=? 1)%nat then
    match HOME with
    | Some home =>
        if (String.length home + String.length PRINTER_FILENAME <? sizeof_name)%nat
        then String.append home PRINTER_FILENAME
        else String.append "."%string PRINTER_FILENAME
    | None => String.append "."%string PRINTER_FILENAME
    end
  else szPrintToFileName.

(** ** What should reach the file *)

(** The bytes one input byte stands for at column [col]: the spaces up to
    the next multiple of 8 for a tab, the byte itself for CR, LF and the
    printable characters, nothing for the rest. *)
Definition printed (col : Z) (Byte : Z) : list Z :=
  if Byte =? 9 then replicate (Z.to_nat (8 - col mod 8)) 32
  else if (Byte =? 13) || (Byte =? 10) || ((32 <=? Byte) && (Byte <? 127)) then [Byte]
  else [].

(** The column after that byte. *)
Definition column_after (col : Z) (Byte : Z) : Z :=
  if Byte =? 9 then col + (8 - col mod 8)
  else if Byte =? 13 then 0
  else if (32 <=? Byte) && (Byte <? 127) then col + 1
  else col.

(** The text a sequence of input bytes stands for, starting at column
    [col]. *)
Fixpoint expand (col : Z) (bs : list Z) : list Z :=
  match bs with
  | [] => []
  | b :: bs' => printed col b ++ expand (column_after col b) bs'
  end.

(** Everything the sink has taken charge of so far, in order: the blocks
    handed to [fwrite], then the bytes still in the buffer. *)
Definition stream (s : State) : list Z := concat (flushed (io_log s)) ++ buffered s.

(** Whether storing this byte starts with a flush. *)
Definition flushes_first (Byte : Z) (s : State) : bool :=
  if Byte =? 9 then PRINTER_BUFFER_SIZE - PRINTER_TAB_SETTING <=? nPrinterBufferChars s
  else if Printer_ValidByte Byte then nPrinterBufferChars s =? PRINTER_BUFFER_SIZE
  else false.

(** The column the text of [bs] reaches from [col], byte after byte,
    never goes beyond INT_MAX: no increment of the counter wraps around. *)
Fixpoint column_within_int (col : Z) (bs : list Z) : Prop :=
  match bs with
  | [] => True
  | b :: bs' => column_after col b <= INT_MAX /\ column_within_int (column_after col b) bs'
  end.

(** 2^31 + 1 letters 'A' with no carriage return among them, then an idle
    check: the column has wrapped around and the buffer is empty. *)
Definition wrapped_column_run : list Op :=
  replicate (Z.to_nat (2 ^ 31 + 1)) (OpAcceptByte env_ok 65) ++ [OpTick env_ok].

(** ** The file handle as the log shows it *)

(** Reading a log from a moment at which the file is open or not
    ([is_open]): [Some b] when every [fopen] found the file closed and every
    [fwrite] and [fclose] found it open, [b] telling whether it is open at
    the end; [None] as soon as one call breaks that. *)
Fixpoint handle_after (is_open : bool) (log : list Event) : option bool :=
  match log with
  | [] => Some is_open
  | EvFopen ok :: log' => if is_open then None else handle_after ok log'
  | EvFwrite _ _ :: log' => if is_open then handle_after true log' else None
  | EvFclose :: log' => if is_open then handle_after false log' else None
  | EvStderr :: log' => handle_after is_open log'
  end.

(** The log and [bPrinterFile] agree. *)
Definition handle_ok (s : State) : Prop :=
  handle_after false (io_log s) = Some (bPrinterFile s).

(** * Properties *)

Ltac unfold_printer :=
  unfold Printer_TransferByteTo, Printer_CheckIdleStatus, Printer_CloseAllConnections,
    Printer_AddTabToInternalBuffer, Printer_AddByteToInternalBuffer,
    Printer_EmptyInternalBuffer, Printer_EmptyFile, Printer_CloseFile,
    Printer_OpenFile, Printer_ResetInternalBuffer, Printer_ResetCharsOnLine, reset in *.

(** ** Wrap-around arithmetic *)

Lemma wrap_int_id z : INT_MIN <= z <= INT_MAX -> wrap_int z = z.
Proof.
  unfold wrap_int, INT_MIN, INT_MAX. intros Hz.
  rewrite Z.mod_small; lia.
Qed.

Lemma wrap_int_succ z k : wrap_int (wrap_int z + k) = wrap_int (z + k).
Proof.
  unfold wrap_int.
  replace ((z + 2 ^ 31) mod 2 ^ 32 - 2 ^ 31 + k + 2 ^ 31)
    with ((z + 2 ^ 31) mod 2 ^ 32 + k) by lia.
  rewrite Zplus_mod_idemp_l. f_equal. f_equal. lia.
Qed.

Lemma wrap_size_t_id z : 0 <= z < 2 ^ 64 -> wrap_size_t z = z.
Proof. intros Hz. unfold wrap_size_t. apply Z.mod_small. lia. Qed.

Lemma wrap_size_t_nonneg z : 0 <= wrap_size_t z.
Proof. unfold wrap_size_t. apply Z.mod_pos_bound. lia. Qed.

(** ** Storing one byte *)

Section Store.
Variables (Byte : Z) (s : State).

Lemma store_frame :
  nPrinterBufferCharsOnLine (store_and_advance Byte s) = nPrinterBufferCharsOnLine s
  /\ bConnectedPrinter (store_and_advance Byte s) = bConnectedPrinter s
  /\ bPrinterFile (store_and_advance Byte s) = bPrinterFile s
  /\ nIdleCount (store_and_advance Byte s) = nIdleCount s
  /\ io_log (store_and_advance Byte s) = io_log s
  /\ length (PrinterBuffer (store_and_advance Byte s)) = length (PrinterBuffer s).
Proof. cbn. rewrite length_insert. tauto. Qed.

Lemma store_chars :
  0 <= nPrinterBufferChars s < 2 ^ 64 - 1 ->
  nPrinterBufferChars (store_and_advance Byte s) = nPrinterBufferChars s + 1.
Proof. intros Hn. cbn. apply wrap_size_t_id. lia. Qed.

Lemma store_buffered :
  0 <= nPrinterBufferChars s < Z.of_nat (length (PrinterBuffer s)) ->
  length (PrinterBuffer s) = 2048%nat ->
  buffered (store_and_advance Byte s) = buffered s ++ [Byte].
Proof.
  intros Hn Hlen. unfold buffered. rewrite store_chars by lia.
  cbn. replace (Z.to_nat (nPrinterBufferChars s + 1))
    with (S (Z.to_nat (nPrinterBufferChars s))) by lia.
  rewrite (take_S_r _ _ Byte).
  - rewrite take_insert_ge by lia. reflexivity.
  - apply list_lookup_insert_eq. lia.
Qed.
End Store.

(** ** The tab loop *)

Lemma add_spaces_frame k : forall s,
  bConnectedPrinter (add_spaces k s) = bConnectedPrinter s
  /\ bPrinterFile (add_spaces k s) = bPrinterFile s
  /\ nIdleCount (add_spaces k s) = nIdleCount s
  /\ io_log (add_spaces k s) = io_log s
  /\ length (PrinterBuffer (add_spaces k s)) = length (PrinterBuffer s).
Proof.
  induction k as [|k IH]; intros s; [cbn; tauto|].
  cbn [add_spaces]. destruct (IH (set_nPrinterBufferCharsOnLine
    (wrap_int (nPrinterBufferCharsOnLine (store_and_advance 32 s) + 1))
    (store_and_advance 32 s))) as (-> & -> & -> & -> & ->).
  cbn. rewrite length_insert. tauto.
Qed.

Lemma add_spaces_col k : forall s,
  nPrinterBufferCharsOnLine (add_spaces (S k) s)
  = wrap_int (nPrinterBufferCharsOnLine s + Z.of_nat (S k)).
Proof.
  induction k as [|k IH]; intros s; [reflexivity|].
  change (add_spaces (S (S k)) s) with
    (add_spaces (S k) (set_nPrinterBufferCharsOnLine
       (wrap_int (nPrinterBufferCharsOnLine (store_and_advance 32 s) + 1))
       (store_and_advance 32 s))).
  rewrite IH. cbn [set_nPrinterBufferCharsOnLine nPrinterBufferCharsOnLine store_and_advance
                   set_nPrinterBufferChars set_PrinterBuffer].
  rewrite wrap_int_succ. f_equal. lia.
Qed.

Lemma add_spaces_chars k : forall s,
  0 <= nPrinterBufferChars s ->
  nPrinterBufferChars s + Z.of_nat k < 2 ^ 64 ->
  nPrinterBufferChars (add_spaces k s) = nPrinterBufferChars s + Z.of_nat k.
Proof.
  induction k as [|k IH]; intros s Hn Hk; [cbn; lia|].
  cbn [add_spaces]. rewrite IH.
  - cbn. rewrite wrap_size_t_id; lia.
  - cbn. apply wrap_size_t_nonneg.
  - cbn. rewrite wrap_size_t_id; lia.
Qed.

Lemma add_spaces_buffered k : forall s,
  0 <= nPrinterBufferChars s ->
  nPrinterBufferChars s + Z.of_nat k <= 2048 ->
  length (PrinterBuffer s) = 2048%nat ->
  buffered (add_spaces k s) = buffered s ++ replicate k 32.
Proof.
  induction k as [|k IH]; intros s Hn Hk Hlen.
  - cbn. rewrite app_nil_r. reflexivity.
  - cbn [add_spaces].
    set (s1 := store_and_advance 32 s).
    assert (Hc : nPrinterBufferChars s1 = nPrinterBufferChars s + 1)
      by (apply store_chars; lia).
    assert (Hb : buffered s1 = buffered s ++ [32])
      by (apply store_buffered; lia).
    rewrite IH.
    + change (buffered (set_nPrinterBufferCharsOnLine _ s1)) with (buffered s1).
      rewrite Hb, <- app_assoc. reflexivity.
    + cbn -[s1 Z.of_nat]. lia.
    + change (nPrinterBufferChars (set_nPrinterBufferCharsOnLine _ s1))
        with (nPrinterBufferChars s1). lia.
    + cbn. rewrite length_insert. exact Hlen.
Qed.

(** ** Flushing *)

Lemma flushed_app l1 l2 : flushed (l1 ++ l2) = flushed l1 ++ flushed l2.
Proof.
  induction l1 as [|ev l1 IH]; [reflexivity|].
  destruct ev; cbn; rewrite ?IH; reflexivity.
Qed.

(** With the file open and something in the buffer, a flush hands exactly
    the buffered bytes to [fwrite] and empties the buffer; nothing else
    changes. *)
Lemma flush_open e s :
  bPrinterFile s = true -> 0 < nPrinterBufferChars s ->
  let s' := snd (Printer_EmptyInternalBuffer e s) in
  nPrinterBufferChars s' = 0
  /\ flushed (io_log s') = flushed (io_log s) ++ [buffered s]
  /\ PrinterBuffer s' = PrinterBuffer s
  /\ nPrinterBufferCharsOnLine s' = nPrinterBufferCharsOnLine s
  /\ bConnectedPrinter s' = bConnectedPrinter s
  /\ bPrinterFile s' = true
  /\ nIdleCount s' = nIdleCount s.
Proof.
  intros Hf Hn. unfold_printer.
  destruct (Z.ltb_spec 0 (nPrinterBufferChars s)) as [_|]; [|lia].
  rewrite Hf. cbn.
  destruct (Z.of_nat _ <? _); cbn; rewrite ?flushed_app, ?app_nil_r; cbn;
    rewrite ?app_nil_r; tauto.
Qed.

(** A flush never touches the flags, the counters other than the buffer
    length, or the array. *)
Lemma flush_frame e s :
  let s' := snd (Printer_EmptyInternalBuffer e s) in
  PrinterBuffer s' = PrinterBuffer s
  /\ nPrinterBufferCharsOnLine s' = nPrinterBufferCharsOnLine s
  /\ bConnectedPrinter s' = bConnectedPrinter s
  /\ bPrinterFile s' = bPrinterFile s
  /\ nIdleCount s' = nIdleCount s.
Proof.
  unfold_printer.
  destruct (0 <? nPrinterBufferChars s); cbn; [|tauto].
  destruct (bPrinterFile s) eqn:Hf; cbn; [|tauto].
  destruct (Z.of_nat _ <? _); cbn; tauto.
Qed.

Lemma flush_empty e s :
  nPrinterBufferChars s <= 0 -> Printer_EmptyInternalBuffer e s = (false, s).
Proof.
  intros Hn. unfold Printer_EmptyInternalBuffer.
  destruct (Z.ltb_spec 0 (nPrinterBufferChars s)); [lia|reflexivity].
Qed.

Lemma flush_closed e s :
  bPrinterFile s = false -> snd (Printer_EmptyInternalBuffer e s) = s.
Proof.
  intros Hf. unfold Printer_EmptyInternalBuffer.
  rewrite Hf. destruct (0 <? nPrinterBufferChars s); reflexivity.
Qed.

(** ** Byte classes *)

Lemma ValidByte_true Byte :
  Printer_ValidByte Byte = true <-> is_line_break Byte \/ is_printable Byte \/ Byte = 9.
Proof.
  unfold Printer_ValidByte, is_line_break, is_printable.
  destruct (Z.eqb_spec Byte 13), (Z.eqb_spec Byte 10), (Z.leb_spec 32 Byte),
    (Z.ltb_spec Byte 127), (Z.eqb_spec Byte 9); cbn; split; intros; try reflexivity;
    try discriminate; lia.
Qed.

Lemma ValidByte_false Byte :
  Printer_ValidByte Byte = false
  <-> ~ (is_line_break Byte \/ is_printable Byte \/ Byte = 9).
Proof. rewrite <- ValidByte_true. destruct (Printer_ValidByte Byte); intuition congruence. Qed.

(** ** [Printer_TransferByteTo] on an open connection *)

Lemma transfer_connected e Byte s :
  bEnablePrinting e = true -> bConnectedPrinter s = true ->
  Printer_TransferByteTo e Byte s = (true, buffer_byte e Byte s).
Proof.
  intros He Hc. unfold Printer_TransferByteTo, buffer_byte.
  rewrite He, Hc. cbn. rewrite Hc. reflexivity.
Qed.

Lemma transfer_disabled e Byte s :
  bEnablePrinting e = false -> Printer_TransferByteTo e Byte s = (false, s).
Proof. intros He. unfold Printer_TransferByteTo. rewrite He. reflexivity. Qed.

(** What is left of [Printer_TransferByteTo] when the connection has to be
    made first. *)
Lemma transfer_connecting e Byte s :
  bEnablePrinting e = true -> bConnectedPrinter s = false ->
  Printer_TransferByteTo e Byte s =
    let s1 := Printer_ResetCharsOnLine (Printer_ResetInternalBuffer
                (set_bConnectedPrinter (fopen_ok e)
                   (set_bPrinterFile (fopen_ok e) (emit (EvFopen (fopen_ok e)) s)))) in
    if fopen_ok e then (true, buffer_byte e Byte s1) else (false, s1).
Proof.
  intros He Hc. unfold Printer_TransferByteTo, buffer_byte, Printer_OpenFile.
  rewrite He, Hc. cbn. destruct (fopen_ok e); reflexivity.
Qed.

Lemma AddByte_frame e Byte s :
  let s' := Printer_AddByteToInternalBuffer e Byte s in
  bConnectedPrinter s' = bConnectedPrinter s
  /\ bPrinterFile s' = bPrinterFile s
  /\ nIdleCount s' = nIdleCount s
  /\ length (PrinterBuffer s') = length (PrinterBuffer s).
Proof.
  unfold Printer_AddByteToInternalBuffer.
  set (s1 := if nPrinterBufferChars s =? PRINTER_BUFFER_SIZE
             then snd (Printer_EmptyInternalBuffer e s) else s).
  assert (H1 : PrinterBuffer s1 = PrinterBuffer s
               /\ bConnectedPrinter s1 = bConnectedPrinter s
               /\ bPrinterFile s1 = bPrinterFile s
               /\ nIdleCount s1 = nIdleCount s).
  { subst s1. destruct (nPrinterBufferChars s =? PRINTER_BUFFER_SIZE); [|tauto].
    pose proof (flush_frame e s) as H. cbn zeta in H. tauto. }
  destruct H1 as (Hb & Hc & Hf & Hi).
  destruct (negb _); cbn; rewrite length_insert, Hb, Hc, Hf, Hi; tauto.
Qed.

Lemma AddTab_frame e s :
  let s' := Printer_AddTabToInternalBuffer e s in
  bConnectedPrinter s' = bConnectedPrinter s
  /\ bPrinterFile s' = bPrinterFile s
  /\ nIdleCount s' = nIdleCount s
  /\ length (PrinterBuffer s') = length (PrinterBuffer s).
Proof.
  unfold Printer_AddTabToInternalBuffer.
  set (s1 := if _ >=? _ then _ else s).
  assert (H1 : PrinterBuffer s1 = PrinterBuffer s
               /\ bConnectedPrinter s1 = bConnectedPrinter s
               /\ bPrinterFile s1 = bPrinterFile s
               /\ nIdleCount s1 = nIdleCount s).
  { subst s1. destruct (_ >=? _); [|tauto].
    pose proof (flush_frame e s) as H. cbn zeta in H. tauto. }
  destruct H1 as (Hb & Hc & Hf & Hi).
  destruct (add_spaces_frame (Z.to_nat (NumSpaces s1)) s1) as (-> & -> & -> & _ & ->).
  rewrite Hb, Hc, Hf, Hi. tauto.
Qed.

Lemma buffer_byte_frame e Byte s :
  let s' := buffer_byte e Byte s in
  bConnectedPrinter s' = bConnectedPrinter s
  /\ bPrinterFile s' = bPrinterFile s
  /\ nIdleCount s' = nIdleCount s
  /\ length (PrinterBuffer s') = length (PrinterBuffer s).
Proof.
  unfold buffer_byte. destruct (Printer_ValidByte Byte); [|cbn; tauto].
  pose proof (AddTab_frame e s) as Ht. pose proof (AddByte_frame e Byte s) as Hb.
  cbn zeta in Ht, Hb.
  destruct (Byte =? 9), (Byte =? 13); cbn; tauto.
Qed.

(** One byte that is not a tab, with room left in the buffer: it is stored
    at the end, and the column follows the class of the byte. *)
Lemma AddByte_room e Byte s :
  nPrinterBufferChars s <> PRINTER_BUFFER_SIZE ->
  Printer_AddByteToInternalBuffer e Byte s =
    let s2 := store_and_advance Byte s in
    if negb ((Byte =? 13) || (Byte =? 10))
    then set_nPrinterBufferCharsOnLine (wrap_int (nPrinterBufferCharsOnLine s2 + 1)) s2
    else s2.
Proof.
  intros Hn. unfold Printer_AddByteToInternalBuffer.
  destruct (Z.eqb_spec (nPrinterBufferChars s) PRINTER_BUFFER_SIZE); [contradiction|].
  reflexivity.
Qed.

(** ** Discarded bytes *)

(** C7: a byte that is neither CR, LF, tab nor printable ASCII, sent on an
    open connection, is accepted ([TRUE] is returned) and changes nothing:
    the array, the buffer length and the column (indeed the whole state)
    are as before. *)
Theorem invalid_byte_discarded (e : Env) (Byte : Z) (s : State) :
  bEnablePrinting e = true ->
  bConnectedPrinter s = true ->
  ~ (Byte = 13 \/ Byte = 10 \/ Byte = 9 \/ 32 <= Byte <= 126) ->
  let r := Printer_TransferByteTo e Byte s in
  fst r = true
  /\ PrinterBuffer (snd r) = PrinterBuffer s
  /\ nPrinterBufferChars (snd r) = nPrinterBufferChars s
  /\ nPrinterBufferCharsOnLine (snd r) = nPrinterBufferCharsOnLine s
  /\ snd r = s.
Proof.
  intros He Hc Hb.
  assert (Hv : Printer_ValidByte Byte = false).
  { apply ValidByte_false. unfold is_line_break, is_printable. tauto. }
  cbn zeta. rewrite transfer_connected by assumption.
  unfold buffer_byte. rewrite Hv. cbn. tauto.
Qed.

Lemma invalid_byte_discarded_witness :
  Printer_TransferByteTo env_ok 7 connected_empty = (true, connected_empty)
  /\ snd (Printer_TransferByteTo env_ok 200 (connected_with 5 5)) = connected_with 5 5.
Proof.
  split.
  - reflexivity.
  - apply (invalid_byte_discarded env_ok 200 (connected_with 5 5)).
    + reflexivity.
    + reflexivity.
    + lia.
Defined.

(** ** The idle counter *)

(** C9: [Printer_TransferByteTo] never writes [nIdleCount], whatever the
    byte and the state, the call that makes the connection included; nor
    does any operation other than the idle check.  So a count that has
    built up while disconnected is still there once connected. *)
Theorem acceptByte_keeps_idleTicks (e : Env) (Byte : Z) (s : State) (o : Op) :
  nIdleCount (snd (Printer_TransferByteTo e Byte s)) = nIdleCount s
  /\ match o with
     | OpTick _ => True
     | _ => nIdleCount (step o s) = nIdleCount s
     end.
Proof.
  assert (Hacc : forall e' b, nIdleCount (snd (Printer_TransferByteTo e' b s)) = nIdleCount s).
  { intros e' b. destruct (bEnablePrinting e') eqn:He.
    - destruct (bConnectedPrinter s) eqn:Hc.
      + rewrite transfer_connected by assumption. cbn [snd].
        apply (buffer_byte_frame e' b s).
      + rewrite transfer_connecting by assumption. cbn zeta.
        destruct (fopen_ok e'); cbn [snd]; [|reflexivity].
        match goal with |- nIdleCount (buffer_byte _ _ ?s1) = _ =>
          destruct (buffer_byte_frame e' b s1) as (_ & _ & -> & _) end.
        reflexivity.
    - rewrite transfer_disabled by assumption. reflexivity. }
  split; [apply Hacc|].
  destruct o as [e' b|e'|e'|e'|]; cbn [step]; try exact I.
  - apply Hacc.
  - apply (flush_frame e' s).
  - unfold Printer_CloseAllConnections, Printer_CloseFile.
    pose proof (flush_frame e' s) as (_ & _ & _ & _ & Hi). cbn zeta in Hi.
    destruct (bPrinterFile _); cbn; exact Hi.
  - reflexivity.
Qed.

(** The carry-over on a concrete run: 50 idle checks while disconnected,
    then a byte that makes the connection; the counter still reads 50. *)
Example idleTicks_carry_over :
  let s := run (replicate 50 (OpTick env_ok) ++ [OpAcceptByte env_ok 65]) Printer_initial in
  bConnectedPrinter s = true /\ nIdleCount s = 50.
Proof. vm_compute. split; reflexivity. Qed.

(** ** Closing *)

Lemma close_closes e s :
  bConnectedPrinter (Printer_CloseAllConnections e s) = false
  /\ bPrinterFile (Printer_CloseAllConnections e s) = false.
Proof.
  unfold Printer_CloseAllConnections, Printer_CloseFile.
  destruct (bPrinterFile (snd _)) eqn:Hf; cbn; auto.
Qed.

Lemma close_closed e s :
  bConnectedPrinter s = false -> bPrinterFile s = false ->
  Printer_CloseAllConnections e s = s.
Proof.
  intros Hc Hf. unfold Printer_CloseAllConnections.
  rewrite flush_closed by assumption.
  unfold Printer_CloseFile. rewrite Hf.
  destruct s; cbn in *; subst; reflexivity.
Qed.

(** C8: closing twice is closing once.  The second
    [Printer_CloseAllConnections] leaves the state of the first untouched
    (so in particular the connected flag, the buffer length, the column and
    the presence of the file), in every state; and closing a sink that is
    already disconnected, with no file open, changes nothing. *)
Theorem close_idempotent (e1 e2 : Env) (s : State) :
  Printer_CloseAllConnections e2 (Printer_CloseAllConnections e1 s)
    = Printer_CloseAllConnections e1 s
  /\ observable (Printer_CloseAllConnections e2 (Printer_CloseAllConnections e1 s))
     = observable (Printer_CloseAllConnections e1 s)
  /\ (bConnectedPrinter s = false -> bPrinterFile s = false ->
      Printer_CloseAllConnections e1 s = s).
Proof.
  destruct (close_closes e1 s) as [Hc Hf].
  assert (H : Printer_CloseAllConnections e2 (Printer_CloseAllConnections e1 s)
              = Printer_CloseAllConnections e1 s)
    by (apply close_closed; assumption).
  split; [exact H|]. split; [rewrite H; reflexivity|].
  apply close_closed.
Qed.

Lemma close_idempotent_witness :
  Printer_CloseAllConnections env_ok (Printer_CloseAllConnections env_ok (connected_with 5 5))
    = Printer_CloseAllConnections env_ok (connected_with 5 5)
  /\ Printer_CloseAllConnections env_ok Printer_initial = Printer_initial.
Proof.
  split.
  - apply (close_idempotent env_ok env_ok (connected_with 5 5)).
  - apply (close_idempotent env_ok env_ok Printer_initial); reflexivity.
Defined.

(** ** One byte into the buffer *)

(** The state [Printer_AddByteToInternalBuffer] stores into: the buffer
    flushed if it was full. *)
Lemma AddByte_spec e Byte s :
  bPrinterFile s = true ->
  length (PrinterBuffer s) = 2048%nat ->
  0 <= nPrinterBufferChars s <= PRINTER_BUFFER_SIZE ->
  let s' := Printer_AddByteToInternalBuffer e Byte s in
  let full := nPrinterBufferChars s =? PRINTER_BUFFER_SIZE in
  nPrinterBufferChars s' = (if full then 0 else nPrinterBufferChars s) + 1
  /\ buffered s' = (if full then [] else buffered s) ++ [Byte]
  /\ flushed (io_log s') = flushed (io_log s) ++ (if full then [buffered s] else [])
  /\ (full = false -> io_log s' = io_log s)
  /\ nPrinterBufferCharsOnLine s' =
       (if negb ((Byte =? 13) || (Byte =? 10))
        then wrap_int (nPrinterBufferCharsOnLine s + 1)
        else nPrinterBufferCharsOnLine s).
Proof.
  unfold PRINTER_BUFFER_SIZE. intros Hf Hlen Hn. cbn zeta.
  unfold Printer_AddByteToInternalBuffer, PRINTER_BUFFER_SIZE.
  set (s1 := if nPrinterBufferChars s =? 2048
             then snd (Printer_EmptyInternalBuffer e s) else s).
  assert (H1 : nPrinterBufferChars s1
                 = (if nPrinterBufferChars s =? 2048 then 0 else nPrinterBufferChars s)
               /\ buffered s1 = (if nPrinterBufferChars s =? 2048 then [] else buffered s)
               /\ flushed (io_log s1) = flushed (io_log s)
                    ++ (if nPrinterBufferChars s =? 2048 then [buffered s] else [])
               /\ ((nPrinterBufferChars s =? 2048) = false -> io_log s1 = io_log s)
               /\ length (PrinterBuffer s1) = 2048%nat
               /\ nPrinterBufferCharsOnLine s1 = nPrinterBufferCharsOnLine s).
  { subst s1. destruct (Z.eqb_spec (nPrinterBufferChars s) 2048) as [Heq|Hne].
    - destruct (flush_open e s Hf ltac:(lia)) as (H0 & Hfl & Hb & Hcol & _).
      unfold buffered at 1. rewrite H0, Hb, Hcol, Hfl, Hlen. cbn.
      repeat split; auto. discriminate.
    - rewrite app_nil_r. tauto. }
  destruct H1 as (Hn1 & Hb1 & Hfl1 & Hlog1 & Hlen1 & Hcol1).
  assert (Hr : 0 <= nPrinterBufferChars s1 < 2048)
    by (rewrite Hn1; destruct (Z.eqb_spec (nPrinterBufferChars s) 2048); lia).
  pose proof (store_chars Byte s1 ltac:(lia)) as Hsc.
  pose proof (store_buffered Byte s1 ltac:(lia) Hlen1) as Hsb.
  destruct (store_frame Byte s1) as (Hfc & _ & _ & _ & Hfl & _).
  destruct (negb _);
    [change (buffered (set_nPrinterBufferCharsOnLine ?c ?t)) with (buffered t)|];
    cbn [nPrinterBufferChars nPrinterBufferCharsOnLine io_log set_nPrinterBufferCharsOnLine];
    rewrite ?Hsc, ?Hsb, ?Hfl, ?Hfc, ?Hn1, ?Hb1, ?Hfl1, ?Hcol1;
    (repeat split; auto).
Qed.

(** The same for a tab: the state the spaces are stored into, and the
    spaces. *)
Lemma AddTab_spec e s :
  bPrinterFile s = true ->
  length (PrinterBuffer s) = 2048%nat ->
  0 <= nPrinterBufferChars s ->
  0 <= nPrinterBufferCharsOnLine s ->
  let s' := Printer_AddTabToInternalBuffer e s in
  let pre := PRINTER_BUFFER_SIZE - PRINTER_TAB_SETTING <=? nPrinterBufferChars s in
  let k := 8 - nPrinterBufferCharsOnLine s mod 8 in
  1 <= k <= 8
  /\ nPrinterBufferChars s' = (if pre then 0 else nPrinterBufferChars s) + k
  /\ buffered s' = (if pre then [] else buffered s) ++ replicate (Z.to_nat k) 32
  /\ flushed (io_log s') = flushed (io_log s) ++ (if pre then [buffered s] else [])
  /\ nPrinterBufferCharsOnLine s' = wrap_int (nPrinterBufferCharsOnLine s + k).
Proof.
  unfold PRINTER_BUFFER_SIZE, PRINTER_TAB_SETTING. intros Hf Hlen Hn Hcol. cbn zeta.
  unfold Printer_AddTabToInternalBuffer, PRINTER_BUFFER_SIZE, PRINTER_TAB_SETTING.
  rewrite Z.geb_leb.
  set (pre := 2048 - 8 <=? nPrinterBufferChars s).
  set (s1 := if pre then snd (Printer_EmptyInternalBuffer e s) else s).
  set (k := 8 - nPrinterBufferCharsOnLine s mod 8).
  assert (Hk : 1 <= k <= 8)
    by (subst k; pose proof (Z.mod_pos_bound (nPrinterBufferCharsOnLine s) 8); lia).
  assert (H1 : nPrinterBufferChars s1 = (if pre then 0 else nPrinterBufferChars s)
               /\ buffered s1 = (if pre then [] else buffered s)
               /\ flushed (io_log s1) = flushed (io_log s) ++ (if pre then [buffered s] else [])
               /\ length (PrinterBuffer s1) = 2048%nat
               /\ nPrinterBufferCharsOnLine s1 = nPrinterBufferCharsOnLine s).
  { subst s1 pre. destruct (Z.leb_spec (2048 - 8) (nPrinterBufferChars s)) as [Hge|Hlt].
    - destruct (flush_open e s Hf ltac:(lia)) as (H0 & Hfl & Hb & Hc & _).
      unfold buffered at 1. rewrite H0, Hb, Hc, Hfl, Hlen. cbn. tauto.
    - rewrite app_nil_r. tauto. }
  destruct H1 as (Hn1 & Hb1 & Hfl1 & Hlen1 & Hcol1).
  assert (Hks : NumSpaces s1 = k).
  { unfold NumSpaces, PRINTER_TAB_SETTING, c_rem. rewrite Hcol1.
    rewrite Z.rem_mod_nonneg by lia. reflexivity. }
  rewrite Hks.
  assert (Hr : 0 <= nPrinterBufferChars s1 /\ nPrinterBufferChars s1 + k <= 2048).
  { rewrite Hn1. subst pre.
    destruct (Z.leb_spec (2048 - 8) (nPrinterBufferChars s)); lia. }
  split; [exact Hk|].
  rewrite add_spaces_chars by lia.
  rewrite add_spaces_buffered by (try assumption; lia).
  destruct (add_spaces_frame (Z.to_nat k) s1) as (_ & _ & _ & -> & _).
  rewrite Hn1, Hb1, Hfl1, Z2Nat.id by lia.
  repeat split; auto.
  destruct (Z.to_nat k) as [|k'] eqn:Hk'; [lia|].
  rewrite add_spaces_col, Hcol1. f_equal. lia.
Qed.

Lemma buffer_byte_tab e s :
  buffer_byte e 9 s = Printer_AddTabToInternalBuffer e s.
Proof. reflexivity. Qed.

Lemma buffer_byte_plain e Byte s :
  is_line_break Byte \/ is_printable Byte ->
  buffer_byte e Byte s =
    if Byte =? 13
    then set_nPrinterBufferCharsOnLine 0 (Printer_AddByteToInternalBuffer e Byte s)
    else Printer_AddByteToInternalBuffer e Byte s.
Proof.
  intros Hb. unfold buffer_byte.
  assert (Hv : Printer_ValidByte Byte = true) by (apply ValidByte_true; tauto).
  assert (H9 : (Byte =? 9) = false)
    by (unfold is_line_break, is_printable in Hb; lia).
  rewrite Hv, H9. reflexivity.
Qed.

(** ** The tab *)

(** C1 (as the code has it): on an open connection, a tab flushes the
    buffer before the spaces go in if and only if the buffer holds at least
    capacity - 8 = 2040 bytes.  The flush hands [fwrite] the bytes that were
    buffered before the tab; below 2040 nothing is written at all. *)
Theorem tab_preflush_threshold (e : Env) (s : State) :
  bEnablePrinting e = true ->
  bConnectedPrinter s = true ->
  bPrinterFile s = true ->
  let s' := snd (Printer_TransferByteTo e 9 s) in
  (flush_count s' = S (flush_count s)
     <-> PRINTER_BUFFER_SIZE - PRINTER_TAB_SETTING <= nPrinterBufferChars s)
  /\ (PRINTER_BUFFER_SIZE - PRINTER_TAB_SETTING <= nPrinterBufferChars s ->
      flushed (io_log s') = flushed (io_log s) ++ [buffered s])
  /\ (nPrinterBufferChars s < PRINTER_BUFFER_SIZE - PRINTER_TAB_SETTING ->
      io_log s' = io_log s).
Proof.
  intros He Hc Hf. cbn zeta.
  rewrite transfer_connected by assumption. cbn [snd]. rewrite buffer_byte_tab.
  unfold Printer_AddTabToInternalBuffer, flush_count.
  rewrite Z.geb_leb.
  set (s1 := if _ <=? _ then _ else s).
  destruct (add_spaces_frame (Z.to_nat (NumSpaces s1)) s1) as (_ & _ & _ & -> & _).
  subst s1.
  destruct (Z.leb_spec (PRINTER_BUFFER_SIZE - PRINTER_TAB_SETTING) (nPrinterBufferChars s))
    as [Hge|Hlt].
  - assert (Hpos : 0 < nPrinterBufferChars s)
      by (unfold PRINTER_BUFFER_SIZE, PRINTER_TAB_SETTING in Hge; lia).
    destruct (flush_open e s Hf Hpos) as (_ & Hfl & _).
    rewrite Hfl, length_app. cbn [length].
    split; [split; [intros _; exact Hge | intros _; lia]|].
    split; [reflexivity | lia].
  - split; [split; lia|]. split; [lia | reflexivity].
Qed.

Lemma tab_preflush_threshold_witness :
  flush_count (snd (Printer_TransferByteTo env_ok 9 (connected_with 2040 0))) = 1%nat
  /\ io_log (snd (Printer_TransferByteTo env_ok 9 (connected_with 2039 0))) = [].
Proof.
  split.
  - apply (tab_preflush_threshold env_ok (connected_with 2040 0)); reflexivity || (cbn; lia).
  - apply (tab_preflush_threshold env_ok (connected_with 2039 0)); reflexivity.
Defined.

(** C1 as the specification words it (flush if and only if the length is
    strictly above 2040, none at exactly 2040) fails: with exactly
    2040 = capacity - 8 bytes buffered the tab does flush, and the 2040
    bytes reach [fwrite] before the 8 spaces are stored at the start of the
    buffer. *)
Lemma tab_flushes_at_2040 :
  nPrinterBufferChars (connected_with 2040 0) = PRINTER_BUFFER_SIZE - 8
  /\ flush_count (connected_with 2040 0) = 0%nat
  /\ flushed (io_log (snd (Printer_TransferByteTo env_ok 9 (connected_with 2040 0))))
     = [replicate 2040 65]
  /\ buffered (snd (Printer_TransferByteTo env_ok 9 (connected_with 2040 0)))
     = replicate 8 32
  /\ ~ (forall (e : Env) (s : State),
          bEnablePrinting e = true -> bConnectedPrinter s = true -> bPrinterFile s = true ->
          (flush_count (snd (Printer_TransferByteTo e 9 s)) = S (flush_count s)
           <-> nPrinterBufferChars s > PRINTER_BUFFER_SIZE - 8)).
Proof.
  split; [reflexivity|]. split; [reflexivity|].
  split; [vm_compute; reflexivity|]. split; [vm_compute; reflexivity|].
  intros H.
  specialize (H env_ok (connected_with 2040 0) eq_refl eq_refl eq_refl).
  destruct H as [H _].
  assert (Hc : flush_count (snd (Printer_TransferByteTo env_ok 9 (connected_with 2040 0)))
               = S (flush_count (connected_with 2040 0))) by (vm_compute; reflexivity).
  apply H in Hc. cbn in Hc. unfold PRINTER_BUFFER_SIZE in Hc. lia.
Qed.

(** X17: on an open connection, with the column a count (not negative), a
    tab stores exactly 8 - (column mod 8) spaces, a number between 1 and 8,
    after whatever is left in the buffer by the pre-flush check, and the
    column is incremented once per space.  From column 0 that is 8 spaces
    and column 8; from column 3, 5 spaces and column 8; from column 8, 8
    spaces (not none) and column 16. *)
Theorem tab_expansion (e : Env) (s : State) :
  bEnablePrinting e = true ->
  bConnectedPrinter s = true ->
  bPrinterFile s = true ->
  length (PrinterBuffer s) = 2048%nat ->
  0 <= nPrinterBufferChars s ->
  0 <= nPrinterBufferCharsOnLine s ->
  let r := Printer_TransferByteTo e 9 s in
  let k := 8 - nPrinterBufferCharsOnLine s mod 8 in
  let kept := if PRINTER_BUFFER_SIZE - PRINTER_TAB_SETTING <=? nPrinterBufferChars s
              then [] else buffered s in
  fst r = true
  /\ 1 <= k <= 8
  /\ buffered (snd r) = kept ++ replicate (Z.to_nat k) 32
  /\ nPrinterBufferCharsOnLine (snd r) = wrap_int (nPrinterBufferCharsOnLine s + k)
  /\ (nPrinterBufferCharsOnLine s + k <= INT_MAX ->
      nPrinterBufferCharsOnLine (snd r) = nPrinterBufferCharsOnLine s + k)
  /\ (nPrinterBufferCharsOnLine s = 0 ->
      buffered (snd r) = kept ++ replicate 8 32 /\ nPrinterBufferCharsOnLine (snd r) = 8)
  /\ (nPrinterBufferCharsOnLine s = 3 ->
      buffered (snd r) = kept ++ replicate 5 32 /\ nPrinterBufferCharsOnLine (snd r) = 8)
  /\ (nPrinterBufferCharsOnLine s = 8 ->
      buffered (snd r) = kept ++ replicate 8 32 /\ nPrinterBufferCharsOnLine (snd r) = 16).
Proof.
  intros He Hc Hf Hlen Hn Hcol. cbn zeta.
  rewrite transfer_connected by assumption. cbn [fst snd]. rewrite buffer_byte_tab.
  destruct (AddTab_spec e s Hf Hlen Hn Hcol) as (Hk & _ & Hb & _ & Hc').
  split; [reflexivity|]. split; [exact Hk|]. split; [exact Hb|]. split; [exact Hc'|].
  split; [intros Hmax; rewrite Hc'; apply wrap_int_id; unfold INT_MIN, INT_MAX in *; lia|].
  split; [intros H0; rewrite Hb, Hc', H0; split; reflexivity|].
  split; intros H0; rewrite Hb, Hc', H0; split; reflexivity.
Qed.

Lemma tab_expansion_witness :
  buffered (snd (Printer_TransferByteTo env_ok 9 (connected_with 3 3)))
    = [65; 65; 65] ++ replicate 5 32
  /\ nPrinterBufferCharsOnLine (snd (Printer_TransferByteTo env_ok 9 (connected_with 3 3))) = 8.
Proof.
  apply (tab_expansion env_ok (connected_with 3 3)); try reflexivity; cbn; lia.
Defined.

(** ** Line breaks and printable characters *)



(** ** Runs *)

Lemma run_app ops1 ops2 s : run (ops1 ++ ops2) s = run ops2 (run ops1 s).
Proof. revert s. induction ops1 as [|o ops1 IH]; intros s; [reflexivity|]. cbn. apply IH. Qed.

(** Bytes other than tabs going into a buffer that has room for all of
    them: they are added at the end, in order, and nothing is written out.
    Line feeds leave the column where it is. *)
Lemma accept_all_room e : forall bs s,
  bEnablePrinting e = true ->
  bConnectedPrinter s = true ->
  bPrinterFile s = true ->
  length (PrinterBuffer s) = 2048%nat ->
  0 <= nPrinterBufferChars s ->
  nPrinterBufferChars s + Z.of_nat (length bs) <= PRINTER_BUFFER_SIZE ->
  Forall (fun b => is_line_break b \/ is_printable b) bs ->
  let s' := accept_all e bs s in
  bConnectedPrinter s' = true
  /\ bPrinterFile s' = true
  /\ length (PrinterBuffer s') = 2048%nat
  /\ nPrinterBufferChars s' = nPrinterBufferChars s + Z.of_nat (length bs)
  /\ buffered s' = buffered s ++ bs
  /\ io_log s' = io_log s
  /\ nIdleCount s' = nIdleCount s
  /\ (Forall (fun b => b = 10) bs ->
      nPrinterBufferCharsOnLine s' = nPrinterBufferCharsOnLine s).
Proof.
  unfold PRINTER_BUFFER_SIZE.
  induction bs as [|b bs IH]; intros s He Hc Hf Hlen Hn Hroom Hbs; cbn zeta.
  - cbn. rewrite app_nil_r, Z.add_0_r. tauto.
  - apply Forall_cons in Hbs. destruct Hbs as [Hb Hbs].
    cbn [length] in Hroom.
    unfold accept_all. cbn [map run step].
    rewrite transfer_connected by assumption. cbn [snd].
    destruct (buffer_byte_frame e b s) as (Hc1 & Hf1 & Hi1 & Hlen1).
    assert (Hspec : nPrinterBufferChars (buffer_byte e b s) = nPrinterBufferChars s + 1
                    /\ buffered (buffer_byte e b s) = buffered s ++ [b]
                    /\ io_log (buffer_byte e b s) = io_log s
                    /\ (b = 10 -> nPrinterBufferCharsOnLine (buffer_byte e b s)
                                  = nPrinterBufferCharsOnLine s)).
    { rewrite buffer_byte_plain by assumption.
      destruct (AddByte_spec e b s Hf Hlen ltac:(unfold PRINTER_BUFFER_SIZE; lia))
        as (Hn' & Hb' & _ & Hlog & Hcol).
      unfold PRINTER_BUFFER_SIZE in *.
      destruct (Z.eqb_spec (nPrinterBufferChars s) 2048) as [Heq|Hne]; [lia|].
      destruct (Z.eqb_spec b 13) as [->|H13].
      - repeat split; auto. discriminate.
      - repeat split; auto. intros ->. exact Hcol. }
    destruct Hspec as (Hn' & Hb' & Hlog & Hcol).
    specialize (IH (buffer_byte e b s) He).
    rewrite Hc1, Hf1, Hlen1, Hn', Hb', Hlog, Hi1 in IH.
    specialize (IH Hc Hf Hlen ltac:(lia) ltac:(lia) Hbs). cbn zeta in IH.
    destruct IH as (IH1 & IH2 & IH3 & IH4 & IH5 & IH6 & IH7 & IH8).
    fold (accept_all e bs (buffer_byte e b s)).
    rewrite IH4, IH5, <- app_assoc. cbn [length app].
    repeat split; auto; try lia.
    intros H10. apply Forall_cons in H10. destruct H10 as [H10 H10s].
    rewrite IH8 by assumption. auto.
Qed.

(** ** A full buffer *)

(** C5: 2049 = capacity + 1 printable bytes sent on an open connection
    whose buffer is empty.  While the first 2048 go in, nothing is written
    out and they fill the buffer.  The 2049th causes the one flush: the
    first 2048 bytes are handed to [fwrite], and after it the buffer holds
    the last byte alone. *)
Theorem one_flush_when_full (e : Env) (bs : list Z) (s : State) :
  bEnablePrinting e = true ->
  bConnectedPrinter s = true ->
  bPrinterFile s = true ->
  length (PrinterBuffer s) = 2048%nat ->
  nPrinterBufferChars s = 0 ->
  length bs = 2049%nat ->
  Forall is_printable bs ->
  (forall j : nat, (j <= 2048)%nat -> io_log (accept_all e (take j bs) s) = io_log s)
  /\ buffered (accept_all e (take 2048 bs) s) = take 2048 bs
  /\ flushed (io_log (accept_all e bs s)) = flushed (io_log s) ++ [take 2048 bs]
  /\ flush_count (accept_all e bs s) = S (flush_count s)
  /\ buffered (accept_all e bs s) = drop 2048 bs
  /\ nPrinterBufferChars (accept_all e bs s) = 1.
Proof.
  intros He Hc Hf Hlen Hn Hbs Hp.
  assert (Hplain : Forall (fun b => is_line_break b \/ is_printable b) bs)
    by (eapply Forall_impl; [exact Hp | cbn; tauto]).
  assert (Hroom : forall j : nat, (j <= 2048)%nat ->
            let s' := accept_all e (take j bs) s in
            bConnectedPrinter s' = true /\ bPrinterFile s' = true
            /\ length (PrinterBuffer s') = 2048%nat
            /\ nPrinterBufferChars s' = Z.of_nat j
            /\ buffered s' = take j bs
            /\ io_log s' = io_log s).
  { intros j Hj.
    destruct (accept_all_room e (take j bs) s He Hc Hf Hlen ltac:(lia)) as
      (H1 & H2 & H3 & H4 & H5 & H6 & _).
    - rewrite length_take, Hbs, Hn. unfold PRINTER_BUFFER_SIZE. lia.
    - apply Forall_take. exact Hplain.
    - cbn zeta. rewrite H4, H5, length_take, Hbs, Hn.
      unfold buffered at 1. rewrite Hn. cbn. repeat split; auto. lia. }
  split; [intros j Hj; apply (Hroom j Hj)|].
  destruct (Hroom 2048%nat (le_n _)) as (Hc1 & Hf1 & Hlen1 & Hn1 & Hb1 & Hlog1).
  split; [exact Hb1|].
  set (s1 := accept_all e (take 2048 bs) s) in *.
  assert (Hlast : exists b, drop 2048 bs = [b] /\ is_printable b).
  { assert (Hd : length (drop 2048 bs) = 1%nat) by (rewrite length_drop; lia).
    assert (Hpd : Forall is_printable (drop 2048 bs)) by (apply Forall_drop; exact Hp).
    destruct (drop 2048 bs) as [|b [|b' l]]; try discriminate Hd.
    exists b. apply Forall_cons in Hpd. tauto. }
  destruct Hlast as (b & Hd & Hpb).
  assert (Hsplit : accept_all e bs s = snd (Printer_TransferByteTo e b s1)).
  { unfold accept_all. rewrite <- (take_drop 2048 bs) at 1.
    rewrite map_app, run_app, Hd. reflexivity. }
  rewrite Hsplit, Hd.
  rewrite transfer_connected by assumption. cbn [snd].
  rewrite buffer_byte_plain by (right; exact Hpb).
  assert (H13 : (b =? 13) = false) by (unfold is_printable in Hpb; lia).
  rewrite H13.
  destruct (AddByte_spec e b s1 Hf1 Hlen1) as (Hn' & Hb' & Hfl & _).
  - rewrite Hn1. unfold PRINTER_BUFFER_SIZE. lia.
  - unfold flush_count. rewrite Hn', Hb', Hfl, Hn1, Hlog1, Hb1, length_app.
    change (Z.of_nat 2048 =? PRINTER_BUFFER_SIZE) with true. cbn.
    repeat split; lia.
Qed.

Lemma one_flush_when_full_witness :
  flushed (io_log (accept_all env_ok (replicate 2049 65) connected_empty))
    = [replicate 2048 65]
  /\ buffered (accept_all env_ok (replicate 2049 65) connected_empty) = [65].
Proof.
  destruct (one_flush_when_full env_ok (replicate 2049 65) connected_empty)
    as (_ & _ & Hfl & _ & Hb & _); try reflexivity.
  - apply Forall_replicate. unfold is_printable. lia.
  - split; [exact Hfl | exact Hb].
Defined.

(** ** Idle supervision *)

Lemma ticks_app es1 es2 s : ticks (es1 ++ es2) s = ticks es2 (ticks es1 s).
Proof. unfold ticks. rewrite map_app. apply run_app. Qed.

(** An idle check with nothing buffered, below the threshold: the counter
    goes up by one and that is all. *)
Lemma tick_idle e s :
  nPrinterBufferChars s = 0 -> 0 <= nIdleCount s -> nIdleCount s + 1 < PRINTER_IDLE_CLOSE ->
  Printer_CheckIdleStatus e s = set_nIdleCount (nIdleCount s + 1) s.
Proof.
  unfold PRINTER_IDLE_CLOSE. intros Hn H0 Hk. unfold Printer_CheckIdleStatus.
  rewrite flush_empty by lia.
  rewrite wrap_int_id by (unfold INT_MIN, INT_MAX; lia).
  cbn [nIdleCount set_nIdleCount]. unfold PRINTER_IDLE_CLOSE.
  destruct (Z.geb_spec (nIdleCount s + 1) (4 * 50)); [lia|reflexivity].
Qed.

(** The idle check that reaches the threshold closes the connection. *)
Lemma tick_closes e s :
  nPrinterBufferChars s = 0 -> nIdleCount s + 1 = PRINTER_IDLE_CLOSE ->
  bConnectedPrinter (Printer_CheckIdleStatus e s) = false
  /\ bPrinterFile (Printer_CheckIdleStatus e s) = false
  /\ nIdleCount (Printer_CheckIdleStatus e s) = 0.
Proof.
  intros Hn Hk. unfold Printer_CheckIdleStatus.
  rewrite flush_empty by lia.
  rewrite wrap_int_id
    by (unfold INT_MIN, INT_MAX; unfold PRINTER_IDLE_CLOSE in Hk; lia).
  cbn [nIdleCount set_nIdleCount]. rewrite Hk.
  destruct (Z.geb_spec PRINTER_IDLE_CLOSE PRINTER_IDLE_CLOSE); [|lia].
  destruct (close_closes e (set_nIdleCount PRINTER_IDLE_CLOSE s)) as [Hc Hf].
  cbn [bConnectedPrinter bPrinterFile nIdleCount set_nIdleCount].
  auto.
Qed.

Lemma ticks_idle : forall es s,
  nPrinterBufferChars s = 0 -> 0 <= nIdleCount s ->
  nIdleCount s + Z.of_nat (length es) < PRINTER_IDLE_CLOSE ->
  ticks es s = set_nIdleCount (nIdleCount s + Z.of_nat (length es)) s.
Proof.
  induction es as [|e es IH]; intros s Hn H0 Hk.
  - cbn. rewrite Z.add_0_r. destruct s; reflexivity.
  - cbn [length] in Hk. unfold ticks. cbn [map run step].
    rewrite tick_idle by lia.
    fold (ticks es (set_nIdleCount (nIdleCount s + 1) s)).
    rewrite IH by (cbn; lia).
    cbn [nIdleCount set_nIdleCount length]. unfold set_nIdleCount. cbn.
    f_equal. lia.
Qed.

(** C2 (as the code has it): on an open connection with nothing buffered
    and the idle counter at 0, 200 = PRINTER_IDLE_CLOSE consecutive idle
    checks close the connection and leave the counter at 0; after fewer than
    200 of them the connection is still open and the counter is their
    number. *)
Theorem idle_close (es : list Env) (s : State) :
  bConnectedPrinter s = true ->
  nPrinterBufferChars s = 0 ->
  nIdleCount s = 0 ->
  (Z.of_nat (length es) = PRINTER_IDLE_CLOSE ->
     bConnectedPrinter (ticks es s) = false /\ nIdleCount (ticks es s) = 0)
  /\ (Z.of_nat (length es) < PRINTER_IDLE_CLOSE ->
     bConnectedPrinter (ticks es s) = true /\ nIdleCount (ticks es s) = Z.of_nat (length es)).
Proof.
  intros Hc Hn Hi. split.
  - intros Hlen.
    induction es as [|e es' _] using rev_ind.
    + cbn in Hlen. unfold PRINTER_IDLE_CLOSE in Hlen. lia.
    + rewrite length_app in Hlen. cbn [length] in Hlen.
      rewrite ticks_app, (ticks_idle es' s) by (unfold PRINTER_IDLE_CLOSE in *; lia).
      unfold ticks. cbn [map run step].
      destruct (tick_closes e (set_nIdleCount (nIdleCount s + Z.of_nat (length es')) s))
        as (H1 & _ & H2).
      * exact Hn.
      * cbn [nIdleCount set_nIdleCount]. lia.
      * auto.
  - intros Hlen. rewrite ticks_idle by (unfold PRINTER_IDLE_CLOSE in *; lia).
    cbn [bConnectedPrinter nIdleCount set_nIdleCount]. split; [assumption | lia].
Qed.

Lemma idle_close_witness :
  bConnectedPrinter (ticks (replicate 200 env_ok) connected_empty) = false
  /\ bConnectedPrinter (ticks (replicate 199 env_ok) connected_empty) = true.
Proof.
  split.
  - apply (idle_close (replicate 200 env_ok) connected_empty); reflexivity.
  - apply (idle_close (replicate 199 env_ok) connected_empty); reflexivity.
Defined.

(** C2 as the specification words it fails on both counts.  When the byte
    that makes the connection is buffered, the first idle check flushes it
    and only sets the counter to 0, so after 200 checks the connection is
    still open (the 201st closes it).  And [nIdleCount] is not reset when
    the connection is made: after 150 idle checks while disconnected, a
    (discarded) byte makes the connection and 50 checks, fewer than 200,
    close it. *)
Lemma idle_close_not_after_200 :
  (bConnectedPrinter Printer_initial = false
   /\ bConnectedPrinter (snd (Printer_TransferByteTo env_ok 65 Printer_initial)) = true
   /\ bConnectedPrinter
        (ticks (replicate 200 env_ok) (snd (Printer_TransferByteTo env_ok 65 Printer_initial)))
      = true
   /\ bConnectedPrinter
        (ticks (replicate 201 env_ok) (snd (Printer_TransferByteTo env_ok 65 Printer_initial)))
      = false)
  /\ (bConnectedPrinter (ticks (replicate 150 env_ok) Printer_initial) = false
      /\ bConnectedPrinter
           (snd (Printer_TransferByteTo env_ok 0 (ticks (replicate 150 env_ok) Printer_initial)))
         = true
      /\ bConnectedPrinter
           (ticks (replicate 50 env_ok)
              (snd (Printer_TransferByteTo env_ok 0
                      (ticks (replicate 150 env_ok) Printer_initial))))
         = false).
Proof. vm_compute. repeat split. Qed.

(** ** Reachable states *)

Lemma flush_chars e s :
  nPrinterBufferChars (snd (Printer_EmptyInternalBuffer e s))
  = if (0 <? nPrinterBufferChars s) && bPrinterFile s then 0 else nPrinterBufferChars s.
Proof.
  unfold_printer.
  destruct (0 <? nPrinterBufferChars s); cbn; [|reflexivity].
  destruct (bPrinterFile s) eqn:Hf; reflexivity.
Qed.

Lemma flush_nonneg e s :
  0 <= nPrinterBufferChars s -> 0 <= nPrinterBufferChars (snd (Printer_EmptyInternalBuffer e s)).
Proof. intros Hn. rewrite flush_chars. destruct (_ && _); lia. Qed.

Lemma add_spaces_nonneg k : forall s,
  0 <= nPrinterBufferChars s -> 0 <= nPrinterBufferChars (add_spaces k s).
Proof.
  induction k as [|k IH]; intros s Hn; [exact Hn|].
  cbn [add_spaces]. apply IH. cbn. apply wrap_size_t_nonneg.
Qed.

Lemma buffer_byte_nonneg e Byte s :
  0 <= nPrinterBufferChars s -> 0 <= nPrinterBufferChars (buffer_byte e Byte s).
Proof.
  intros Hn. unfold buffer_byte. destruct (Printer_ValidByte Byte); [|exact Hn].
  assert (H : 0 <= nPrinterBufferChars
                (if Byte =? 9 then Printer_AddTabToInternalBuffer e s
                 else Printer_AddByteToInternalBuffer e Byte s)).
  { destruct (Byte =? 9).
    - unfold Printer_AddTabToInternalBuffer. apply add_spaces_nonneg.
      destruct (_ >=? _); [apply flush_nonneg|]; exact Hn.
    - unfold Printer_AddByteToInternalBuffer.
      destruct (negb _); cbn; apply wrap_size_t_nonneg. }
  destruct (Byte =? 13); exact H.
Qed.

Lemma close_chars e s :
  nPrinterBufferChars (Printer_CloseAllConnections e s)
  = nPrinterBufferChars (snd (Printer_EmptyInternalBuffer e s)).
Proof.
  unfold Printer_CloseAllConnections, Printer_CloseFile.
  destruct (bPrinterFile _); reflexivity.
Qed.

Lemma flush_inv e s : sink_inv s -> sink_inv (snd (Printer_EmptyInternalBuffer e s)).
Proof.
  intros (Hfc & Hn & Hd). unfold sink_inv.
  destruct (flush_frame e s) as (_ & _ & -> & -> & _).
  rewrite flush_chars.
  split; [exact Hfc|]. split; [destruct (_ && _); lia|].
  intros Hc. rewrite (Hd Hc). destruct (_ && _); reflexivity.
Qed.

Lemma close_inv e s : sink_inv s -> sink_inv (Printer_CloseAllConnections e s).
Proof.
  intros Hinv. destruct (flush_inv e s Hinv) as (_ & Hn' & _).
  destruct Hinv as (Hfc & Hn & Hd). unfold sink_inv.
  destruct (close_closes e s) as [-> ->]. rewrite close_chars.
  split; [reflexivity|]. split; [exact Hn'|]. intros _.
  rewrite flush_chars.
  destruct (Z.ltb_spec 0 (nPrinterBufferChars s)) as [Hpos|Hle]; cbn.
  - destruct (bConnectedPrinter s) eqn:Hc.
    + rewrite Hfc. reflexivity.
    + specialize (Hd eq_refl). lia.
  - lia.
Qed.

Lemma tick_inv e s : sink_inv s -> sink_inv (Printer_CheckIdleStatus e s).
Proof.
  intros Hinv. unfold Printer_CheckIdleStatus.
  pose proof (flush_inv e s Hinv) as Hfl.
  destruct (Printer_EmptyInternalBuffer e s) as [r s1]. cbn [snd] in Hfl.
  destruct r; [exact Hfl|].
  destruct (_ >=? _); [|exact Hfl].
  apply (close_inv e (set_nIdleCount (wrap_int (nIdleCount s1 + 1)) s1)). exact Hfl.
Qed.

Lemma accept_inv e Byte s : sink_inv s -> sink_inv (snd (Printer_TransferByteTo e Byte s)).
Proof.
  intros (Hfc & Hn & Hd).
  destruct (bEnablePrinting e) eqn:He;
    [|rewrite transfer_disabled by assumption; split; auto].
  destruct (bConnectedPrinter s) eqn:Hc.
  - rewrite transfer_connected by assumption. cbn [snd].
    destruct (buffer_byte_frame e Byte s) as (Hc' & Hf' & _).
    unfold sink_inv. rewrite Hc', Hf', Hc.
    split; [exact Hfc|]. split; [apply buffer_byte_nonneg; exact Hn | discriminate].
  - rewrite transfer_connecting by assumption. cbn zeta.
    destruct (fopen_ok e); cbn [snd].
    + match goal with |- sink_inv (buffer_byte _ _ ?s1) =>
        destruct (buffer_byte_frame e Byte s1) as (Hc' & Hf' & _);
        pose proof (buffer_byte_nonneg e Byte s1) as Hn' end.
      unfold sink_inv. rewrite Hc', Hf'. cbn in Hn' |- *.
      split; [reflexivity|]. split; [apply Hn'; lia | discriminate].
    + split; [reflexivity|]. split; [cbn; lia | reflexivity].
Qed.

Lemma step_inv o s : sink_inv s -> sink_inv (step o s).
Proof.
  intros Hinv. destruct o as [e b|e|e|e|]; cbn [step].
  - apply accept_inv. exact Hinv.
  - apply tick_inv. exact Hinv.
  - apply flush_inv. exact Hinv.
  - apply close_inv. exact Hinv.
  - destruct Hinv as (Hfc & _ & _). split; [exact Hfc|]. split; [cbn; lia | reflexivity].
Qed.

Lemma run_inv ops : forall s, sink_inv s -> sink_inv (run ops s).
Proof.
  induction ops as [|o ops IH]; intros s Hinv; [exact Hinv|].
  cbn [run]. apply IH, step_inv, Hinv.
Qed.

Lemma initial_inv : sink_inv Printer_initial.
Proof. split; [reflexivity|]. split; [cbn; lia | reflexivity]. Qed.

(** C10: in every state reached from [Printer_initial] by transfers, idle
    checks, flushes, closes and resets, a sink that is not connected has an
    empty buffer. *)
Theorem disconnected_buffer_empty (ops : list Op) :
  bConnectedPrinter (run ops Printer_initial) = false ->
  nPrinterBufferChars (run ops Printer_initial) = 0.
Proof. apply (run_inv ops Printer_initial initial_inv). Qed.

Lemma disconnected_buffer_empty_witness :
  nPrinterBufferChars
    (run [OpAcceptByte env_ok 65; OpAcceptByte env_ok 66; OpClose env_ok] Printer_initial) = 0.
Proof.
  apply (disconnected_buffer_empty
           [OpAcceptByte env_ok 65; OpAcceptByte env_ok 66; OpClose env_ok]).
  reflexivity.
Defined.

(** ** The bound on the buffer length *)

Lemma wrap_int_range z : INT_MIN <= wrap_int z <= INT_MAX.
Proof.
  unfold wrap_int, INT_MIN, INT_MAX.
  pose proof (Z.mod_pos_bound (z + 2 ^ 31) (2 ^ 32)). lia.
Qed.

(** One printable character on an open connection. *)
Lemma accept_printable e Byte s :
  bEnablePrinting e = true -> is_printable Byte -> open_ok s ->
  let s' := step (OpAcceptByte e Byte) s in
  open_ok s'
  /\ 1 <= nPrinterBufferChars s'
  /\ nPrinterBufferCharsOnLine s' = wrap_int (nPrinterBufferCharsOnLine s + 1).
Proof.
  intros He Hp (Hc & Hf & Hlen & Hn). cbn zeta. cbn [step].
  rewrite transfer_connected by assumption. cbn [snd].
  destruct (buffer_byte_frame e Byte s) as (Hc' & Hf' & _ & Hlen').
  unfold open_ok. rewrite Hc', Hf', Hlen'.
  rewrite buffer_byte_plain by (right; exact Hp).
  assert (H13 : (Byte =? 13) = false) by (unfold is_printable in Hp; lia).
  assert (H10 : (Byte =? 10) = false) by (unfold is_printable in Hp; lia).
  rewrite H13.
  destruct (AddByte_spec e Byte s Hf Hlen Hn) as (-> & _ & _ & _ & ->).
  rewrite H13, H10. unfold PRINTER_BUFFER_SIZE in *.
  destruct (Z.eqb_spec (nPrinterBufferChars s) 2048); repeat split; auto; lia.
Qed.

(** Any number of them: the connection stays in good order, and the
    column has been incremented as an [int] that many times. *)
Lemma printable_run e Byte (k : nat) : forall s,
  bEnablePrinting e = true -> is_printable Byte -> open_ok s ->
  INT_MIN <= nPrinterBufferCharsOnLine s <= INT_MAX ->
  let s' := run (replicate k (OpAcceptByte e Byte)) s in
  open_ok s'
  /\ ((0 < k)%nat -> 1 <= nPrinterBufferChars s')
  /\ nPrinterBufferCharsOnLine s' = wrap_int (nPrinterBufferCharsOnLine s + Z.of_nat k).
Proof.
  induction k as [|k IH]; intros s He Hp Hok Hcol; cbn zeta.
  - cbn [replicate run]. rewrite Z.add_0_r, wrap_int_id by assumption.
    split; [exact Hok|]. split; [lia | reflexivity].
  - cbn [replicate run].
    destruct (accept_printable e Byte s He Hp Hok) as (Hok1 & Hn1 & Hcol1).
    set (s1 := step (OpAcceptByte e Byte) s) in *.
    destruct (IH s1 He Hp Hok1) as (Hok' & Hn' & Hcol').
    { rewrite Hcol1. apply wrap_int_range. }
    split; [exact Hok'|]. split.
    + intros _. destruct k as [|k']; [exact Hn1 | apply Hn'; lia].
    + rewrite Hcol', Hcol1, wrap_int_succ. f_equal. lia.
Qed.

(** An idle check that finds bytes in the buffer of an open file: they
    are flushed, the idle counter is set to 0, and that is all. *)
Lemma tick_flushes e s :
  0 < nPrinterBufferChars s ->
  Printer_CheckIdleStatus e s = set_nIdleCount 0 (snd (Printer_EmptyInternalBuffer e s)).
Proof.
  intros Hn. unfold Printer_CheckIdleStatus, Printer_EmptyInternalBuffer.
  destruct (Z.ltb_spec 0 (nPrinterBufferChars s)); [reflexivity | lia].
Qed.

Lemma map_replicate {A B} (f : A -> B) k x : map f (replicate k x) = replicate k (f x).
Proof. induction k as [|k IH]; [reflexivity|]. cbn. rewrite IH. reflexivity. Qed.

(** The first letter makes the connection; after [k] more, with [k] =
    2^31, the column has wrapped around to INT_MIN + 1. *)
Lemma letters_wrap_column (k : nat) :
  Z.of_nat k = 2 ^ 31 ->
  let s := run (replicate (S k) (OpAcceptByte env_ok 65)) Printer_initial in
  open_ok s /\ 1 <= nPrinterBufferChars s /\ nPrinterBufferCharsOnLine s = INT_MIN + 1.
Proof.
  intros Hk. cbn zeta.
  change (replicate (S k) (OpAcceptByte env_ok 65))
    with (OpAcceptByte env_ok 65 :: replicate k (OpAcceptByte env_ok 65)).
  cbn [run].
  set (s1 := step (OpAcceptByte env_ok 65) Printer_initial).
  assert (Hn1 : nPrinterBufferChars s1 = 1) by (vm_compute; reflexivity).
  assert (Hcol1 : nPrinterBufferCharsOnLine s1 = 1) by (vm_compute; reflexivity).
  assert (Hok1 : open_ok s1).
  { unfold open_ok, PRINTER_BUFFER_SIZE. rewrite Hn1.
    repeat split; try (vm_compute; reflexivity); lia. }
  destruct (printable_run env_ok 65 k s1 eq_refl) as (Hok2 & Hn2 & Hcol2);
    [unfold is_printable; lia | exact Hok1
    | rewrite Hcol1; unfold INT_MIN, INT_MAX; lia |].
  split; [exact Hok2|]. split; [apply Hn2; lia|].
  rewrite Hcol2, Hcol1, Hk. reflexivity.
Qed.

(** The idle check flushes what is buffered and keeps the column. *)
Lemma tick_keeps_column s :
  open_ok s -> 1 <= nPrinterBufferChars s ->
  let s' := step (OpTick env_ok) s in
  open_ok s' /\ nPrinterBufferChars s' = 0
  /\ nPrinterBufferCharsOnLine s' = nPrinterBufferCharsOnLine s.
Proof.
  intros (Hc & Hf & Hlen & Hn) Hpos. cbn zeta. cbn [step].
  rewrite tick_flushes by lia.
  destruct (flush_open env_ok s Hf ltac:(lia)) as (Hn' & _ & Hb' & Hcol' & Hc' & Hf' & _).
  unfold open_ok, PRINTER_BUFFER_SIZE.
  cbn [bConnectedPrinter bPrinterFile PrinterBuffer nPrinterBufferChars
       nPrinterBufferCharsOnLine set_nIdleCount].
  rewrite Hn', Hb', Hcol', Hc', Hf'. repeat split; auto; lia.
Qed.

(** Line feeds fill the buffer and keep the column. *)
Lemma line_feeds_keep_column (m : nat) s :
  open_ok s -> nPrinterBufferChars s = 0 -> Z.of_nat m <= PRINTER_BUFFER_SIZE ->
  let s' := run (replicate m (OpAcceptByte env_ok 10)) s in
  open_ok s' /\ nPrinterBufferChars s' = Z.of_nat m
  /\ nPrinterBufferCharsOnLine s' = nPrinterBufferCharsOnLine s.
Proof.
  intros (Hc & Hf & Hlen & Hn) H0 Hm. cbn zeta.
  rewrite <- (map_replicate (OpAcceptByte env_ok) m 10).
  fold (accept_all env_ok (replicate m 10) s).
  destruct (accept_all_room env_ok (replicate m 10) s eq_refl Hc Hf Hlen)
    as (Hc' & Hf' & Hlen' & Hn' & _ & _ & _ & Hcol').
  - lia.
  - rewrite length_replicate. lia.
  - apply Forall_replicate. left. right. reflexivity.
  - rewrite length_replicate, H0 in Hn'. unfold open_ok.
    rewrite Hn'. repeat split; auto; try lia.
    apply Hcol', Forall_replicate. reflexivity.
Qed.

(** The tab at column INT_MIN + 1 with 2034 bytes buffered: no flush,
    15 spaces, and the buffer length goes to 2049. *)
Lemma tab_overruns s :
  open_ok s -> nPrinterBufferChars s = 2034 ->
  nPrinterBufferCharsOnLine s = INT_MIN + 1 ->
  NumSpaces s = 15 /\ nPrinterBufferChars (step (OpAcceptByte env_ok 9) s) = 2049.
Proof.
  intros (Hc & Hf & Hlen & Hn) H2034 Hcol.
  assert (Hnum : NumSpaces s = 15) by (unfold NumSpaces; rewrite Hcol; reflexivity).
  split; [exact Hnum|].
  cbn [step]. rewrite transfer_connected by (reflexivity || assumption).
  cbn [snd]. rewrite buffer_byte_tab.
  unfold Printer_AddTabToInternalBuffer. rewrite H2034.
  change (2034 >=? PRINTER_BUFFER_SIZE - PRINTER_TAB_SETTING) with false.
  cbn iota. rewrite Hnum, add_spaces_chars by lia.
  rewrite H2034. reflexivity.
Qed.

(** C4 fails on the code.  [nPrinterBufferCharsOnLine] is an [int] that
    only a carriage return or a new connection resets.  After 2^31 + 1
    printable characters without either it has wrapped around to
    INT_MIN + 1; [%] then gives -7, so the next tab stores 15 spaces, not at
    most 8, and the pre-flush threshold of capacity - 8 no longer protects
    the array: with 2034 bytes buffered no flush happens and the buffer
    length ends at 2049, above the capacity of 2048. *)
Theorem buffer_overrun_after_column_wraps :
  nPrinterBufferCharsOnLine
    (run (replicate (Z.to_nat (2 ^ 31 + 1)) (OpAcceptByte env_ok 65)) Printer_initial)
    = INT_MIN + 1
  /\ nPrinterBufferChars (run overflow_run Printer_initial) = 2049
  /\ PRINTER_BUFFER_SIZE < nPrinterBufferChars (run overflow_run Printer_initial).
Proof.
  unfold overflow_run.
  rewrite (Z.add_1_r (2 ^ 31)), Z2Nat.inj_succ by (apply Z.pow_nonneg; lia).
  destruct (letters_wrap_column (Z.to_nat (2 ^ 31))) as (Hok2 & Hn2 & Hcol2);
    [apply Z2Nat.id, Z.pow_nonneg; lia|].
  split; [exact Hcol2|].
  rewrite !run_app.
  destruct (tick_keeps_column _ Hok2 Hn2) as (Hok3 & Hn3 & Hcol3).
  destruct (line_feeds_keep_column 2034 _ Hok3 Hn3) as (Hok4 & Hn4 & Hcol4);
    [unfold PRINTER_BUFFER_SIZE; lia|].
  rewrite Hcol3, Hcol2 in Hcol4.
  destruct (tab_overruns _ Hok4 Hn4 Hcol4) as [_ Hn5].
  assert (Htick : forall s, run [OpTick env_ok] s = step (OpTick env_ok) s) by reflexivity.
  assert (Htab : forall s, run [OpAcceptByte env_ok 9] s = step (OpAcceptByte env_ok 9) s)
    by reflexivity.
  rewrite Htick, Htab, Hn5. split; reflexivity.
Qed.

(** A tab on an open connection with an empty buffer, at column
    INT_MIN + 1. *)
Lemma tab_at_wrapped_column s :
  open_ok s -> nPrinterBufferChars s = 0 ->
  nPrinterBufferCharsOnLine s = INT_MIN + 1 ->
  bConnectedPrinter s = true
  /\ nPrinterBufferCharsOnLine s = INT_MIN + 1
  /\ 8 - nPrinterBufferCharsOnLine s mod 8 = 7
  /\ buffered s = []
  /\ NumSpaces s = 15
  /\ buffered (snd (Printer_TransferByteTo env_ok 9 s)) = replicate 15 32
  /\ nPrinterBufferCharsOnLine (snd (Printer_TransferByteTo env_ok 9 s)) = INT_MIN + 16.
Proof.
  intros (Hc & Hf & Hlen & Hn) H0 Hcol.
  assert (Hnum : NumSpaces s = 15) by (unfold NumSpaces; rewrite Hcol; reflexivity).
  assert (Hempty : buffered s = []) by (unfold buffered; rewrite H0; reflexivity).
  split; [exact Hc|]. split; [exact Hcol|].
  split; [rewrite Hcol; reflexivity|].
  split; [exact Hempty|]. split; [exact Hnum|].
  rewrite transfer_connected by (reflexivity || assumption).
  cbn [snd]. rewrite buffer_byte_tab.
  unfold Printer_AddTabToInternalBuffer. rewrite H0.
  change (0 >=? PRINTER_BUFFER_SIZE - PRINTER_TAB_SETTING) with false.
  cbn iota. rewrite Hnum.
  rewrite add_spaces_buffered by (rewrite ?H0; (exact Hlen || lia)).
  change (Z.to_nat 15) with 15%nat.
  rewrite add_spaces_col, Hcol, Hempty. split; reflexivity.
Qed.

(** C3 fails on the code, by the defect of C4.  After 2^31 + 1 printable
    characters without a carriage return the column is INT_MIN + 1, for
    which 8 - (column mod 8) is 7; the code computes 8 - (column % 8) with
    C's truncating [%], which is 15, and the tab stores 15 spaces: not the
    number the claim gives, and not between 1 and 8. *)
Theorem tab_stores_15_spaces_after_column_wraps :
  bConnectedPrinter (run wrapped_column_run Printer_initial) = true
  /\ nPrinterBufferCharsOnLine (run wrapped_column_run Printer_initial) = INT_MIN + 1
  /\ 8 - nPrinterBufferCharsOnLine (run wrapped_column_run Printer_initial) mod 8 = 7
  /\ buffered (run wrapped_column_run Printer_initial) = []
  /\ NumSpaces (run wrapped_column_run Printer_initial) = 15
  /\ buffered (snd (Printer_TransferByteTo env_ok 9 (run wrapped_column_run Printer_initial)))
     = replicate 15 32
  /\ nPrinterBufferCharsOnLine
       (snd (Printer_TransferByteTo env_ok 9 (run wrapped_column_run Printer_initial)))
     = INT_MIN + 16.
Proof.
  unfold wrapped_column_run.
  rewrite (Z.add_1_r (2 ^ 31)), Z2Nat.inj_succ by (apply Z.pow_nonneg; lia).
  destruct (letters_wrap_column (Z.to_nat (2 ^ 31))) as (Hok2 & Hn2 & Hcol2);
    [apply Z2Nat.id, Z.pow_nonneg; lia|].
  rewrite run_app.
  destruct (tick_keeps_column _ Hok2 Hn2) as (Hok3 & Hn3 & Hcol3).
  assert (Htick : forall s, run [OpTick env_ok] s = step (OpTick env_ok) s) by reflexivity.
  rewrite Htick. rewrite Hcol2 in Hcol3.
  exact (tab_at_wrapped_column _ Hok3 Hn3 Hcol3).
Qed.

(** What does hold: as long as the column is a count (not negative), no
    operation takes the buffer length above the capacity. *)
Lemma buffer_byte_bound e Byte s :
  bPrinterFile s = true ->
  length (PrinterBuffer s) = 2048%nat ->
  0 <= nPrinterBufferChars s <= PRINTER_BUFFER_SIZE ->
  0 <= nPrinterBufferCharsOnLine s ->
  nPrinterBufferChars (buffer_byte e Byte s) <= PRINTER_BUFFER_SIZE.
Proof.
  intros Hf Hlen Hn Hcol. unfold buffer_byte.
  destruct (Printer_ValidByte Byte); [|lia].
  assert (H : nPrinterBufferChars
                (if Byte =? 9 then Printer_AddTabToInternalBuffer e s
                 else Printer_AddByteToInternalBuffer e Byte s) <= PRINTER_BUFFER_SIZE).
  { destruct (Byte =? 9).
    - destruct (AddTab_spec e s Hf Hlen ltac:(lia) Hcol) as (Hk & -> & _).
      unfold PRINTER_BUFFER_SIZE, PRINTER_TAB_SETTING in *.
      destruct (Z.leb_spec (2048 - 8) (nPrinterBufferChars s)); lia.
    - destruct (AddByte_spec e Byte s Hf Hlen Hn) as (-> & _).
      unfold PRINTER_BUFFER_SIZE in *.
      destruct (Z.eqb_spec (nPrinterBufferChars s) 2048); lia. }
  destruct (Byte =? 13); exact H.
Qed.

Lemma close_buffer e s :
  PrinterBuffer (Printer_CloseAllConnections e s) = PrinterBuffer s.
Proof.
  unfold Printer_CloseAllConnections, Printer_CloseFile.
  destruct (flush_frame e s) as (Hb & _).
  destruct (bPrinterFile _); cbn; exact Hb.
Qed.

Lemma step_keeps_bound o s :
  sink_inv s ->
  length (PrinterBuffer s) = 2048%nat ->
  nPrinterBufferChars s <= PRINTER_BUFFER_SIZE ->
  0 <= nPrinterBufferCharsOnLine s ->
  nPrinterBufferChars (step o s) <= PRINTER_BUFFER_SIZE
  /\ length (PrinterBuffer (step o s)) = 2048%nat.
Proof.
  intros (Hfc & Hn & Hd) Hlen Hle Hcol.
  assert (Hflush : forall e, nPrinterBufferChars (snd (Printer_EmptyInternalBuffer e s))
                             <= PRINTER_BUFFER_SIZE
                             /\ length (PrinterBuffer (snd (Printer_EmptyInternalBuffer e s)))
                                = 2048%nat).
  { intros e. rewrite flush_chars. destruct (flush_frame e s) as (-> & _).
    unfold PRINTER_BUFFER_SIZE in *. destruct (_ && _); split; auto; lia. }
  destruct o as [e b|e|e|e|]; cbn [step].
  - destruct (bEnablePrinting e) eqn:He;
      [|rewrite transfer_disabled by assumption; auto].
    destruct (bConnectedPrinter s) eqn:Hc.
    + rewrite transfer_connected by assumption. cbn [snd].
      destruct (buffer_byte_frame e b s) as (_ & _ & _ & ->).
      split; [|exact Hlen]. apply buffer_byte_bound; try assumption; lia.
    + rewrite transfer_connecting by assumption. cbn zeta.
      destruct (fopen_ok e); cbn [snd].
      * match goal with |- nPrinterBufferChars (buffer_byte _ _ ?s1) <= _ /\ _ =>
          destruct (buffer_byte_frame e b s1) as (_ & _ & _ & ->);
          pose proof (buffer_byte_bound e b s1) as Hb end.
        cbn in Hb |- *. split; [|exact Hlen].
        apply Hb; auto; unfold PRINTER_BUFFER_SIZE; lia.
      * cbn. unfold PRINTER_BUFFER_SIZE. split; [lia | exact Hlen].
  - unfold Printer_CheckIdleStatus.
    pose proof (Hflush e) as Hfl.
    destruct (Printer_EmptyInternalBuffer e s) as [r s1]. cbn [snd] in Hfl.
    destruct r; [exact Hfl|].
    destruct (_ >=? _); [|exact Hfl].
    cbn [nPrinterBufferChars PrinterBuffer set_nIdleCount].
    rewrite close_chars, close_buffer, flush_chars.
    cbn [nPrinterBufferChars PrinterBuffer bPrinterFile set_nIdleCount].
    unfold PRINTER_BUFFER_SIZE in *. destruct (_ && _); split; try tauto; lia.
  - apply Hflush.
  - rewrite close_chars, close_buffer. split; [apply Hflush | exact Hlen].
  - cbn. unfold PRINTER_BUFFER_SIZE. split; [lia | exact Hlen].
Qed.

Lemma run_keeps_bound ops : forall s,
  sink_inv s ->
  length (PrinterBuffer s) = 2048%nat ->
  nPrinterBufferChars s <= PRINTER_BUFFER_SIZE ->
  column_counts ops s ->
  nPrinterBufferChars (run ops s) <= PRINTER_BUFFER_SIZE.
Proof.
  induction ops as [|o ops IH]; intros s Hinv Hlen Hle Hcc; [exact Hle|].
  destruct Hcc as [Hcol Hcc]. cbn [run].
  destruct (step_keeps_bound o s Hinv Hlen Hle Hcol) as [Hle' Hlen'].
  apply IH; auto. apply step_inv, Hinv.
Qed.

(** X15: on every run from [Printer_initial] during which the column has
    not wrapped below 0, however long the run, the buffer length stays
    within the capacity (the bound of C4). *)
Lemma bounded_while_column_counts ops :
  column_counts ops Printer_initial ->
  nPrinterBufferChars (run ops Printer_initial) <= PRINTER_BUFFER_SIZE.
Proof.
  apply run_keeps_bound.
  - apply initial_inv.
  - reflexivity.
  - cbn. unfold PRINTER_BUFFER_SIZE. lia.
Qed.

(** * Further properties of the code *)

(** ** Every byte, with its flush *)

Lemma AddTab_log e s :
  nPrinterBufferChars s < PRINTER_BUFFER_SIZE - PRINTER_TAB_SETTING ->
  io_log (Printer_AddTabToInternalBuffer e s) = io_log s.
Proof.
  intros Hlt. unfold Printer_AddTabToInternalBuffer. rewrite Z.geb_leb.
  destruct (Z.leb_spec (PRINTER_BUFFER_SIZE - PRINTER_TAB_SETTING) (nPrinterBufferChars s));
    [lia|].
  apply add_spaces_frame.
Qed.

(** What any byte does on an open connection while the column is a count
    below INT_MAX - 7: whether a flush comes first, what is in the buffer
    afterwards, and where the column is. *)
Lemma buffer_byte_spec e Byte s :
  open_ok s ->
  0 <= nPrinterBufferCharsOnLine s <= INT_MAX - 8 ->
  let s' := buffer_byte e Byte s in
  open_ok s'
  /\ buffered s' = (if flushes_first Byte s then [] else buffered s)
                   ++ printed (nPrinterBufferCharsOnLine s) Byte
  /\ flushed (io_log s') = flushed (io_log s)
                           ++ (if flushes_first Byte s then [buffered s] else [])
  /\ (flushes_first Byte s = false -> io_log s' = io_log s)
  /\ nPrinterBufferCharsOnLine s' = column_after (nPrinterBufferCharsOnLine s) Byte.
Proof.
  intros (Hc & Hf & Hlen & Hn) Hcol. cbn zeta.
  destruct (buffer_byte_frame e Byte s) as (Hc' & Hf' & _ & Hlen').
  unfold open_ok. rewrite Hc', Hf', Hlen'.
  unfold flushes_first, printed, column_after.
  destruct (Z.eqb_spec Byte 9) as [->|H9].
  - rewrite buffer_byte_tab.
    destruct (AddTab_spec e s Hf Hlen ltac:(lia) ltac:(lia)) as (Hk & Hn' & Hb' & Hfl & Hcol').
    rewrite Hn', Hb', Hfl, Hcol'.
    rewrite wrap_int_id by (unfold INT_MIN, INT_MAX in *; lia).
    unfold PRINTER_BUFFER_SIZE, PRINTER_TAB_SETTING in *.
    destruct (Z.leb_spec (2048 - 8) (nPrinterBufferChars s)) as [Hge|Hlt].
    + repeat split; auto; try lia; try discriminate.
    + repeat split; auto; try lia. intros _. apply AddTab_log.
      unfold PRINTER_BUFFER_SIZE, PRINTER_TAB_SETTING. lia.
  - destruct (Printer_ValidByte Byte) eqn:Hv.
    + apply ValidByte_true in Hv.
      assert (Hplain : is_line_break Byte \/ is_printable Byte) by tauto.
      rewrite buffer_byte_plain by assumption.
      destruct (AddByte_spec e Byte s Hf Hlen Hn) as (Hn' & Hb' & Hfl & Hlog & Hcol').
      assert (Hset : forall c t, buffered (set_nPrinterBufferCharsOnLine c t) = buffered t
                       /\ nPrinterBufferChars (set_nPrinterBufferCharsOnLine c t)
                          = nPrinterBufferChars t
                       /\ io_log (set_nPrinterBufferCharsOnLine c t) = io_log t)
        by (intros c t; repeat split).
      assert (Hshow : (Byte =? 13) || (Byte =? 10) || ((32 <=? Byte) && (Byte <? 127)) = true)
        by (unfold is_line_break, is_printable in Hplain; lia).
      rewrite Hshow.
      unfold PRINTER_BUFFER_SIZE in *.
      destruct (Z.eqb_spec Byte 13) as [->|H13].
      * destruct (Hset 0 (Printer_AddByteToInternalBuffer e 13 s)) as (-> & -> & ->).
        rewrite Hn', Hb', Hfl.
        destruct (Z.eqb_spec (nPrinterBufferChars s) 2048);
          repeat split; auto; try lia; try discriminate.
      * rewrite Hn', Hb', Hfl, Hcol'.
        destruct (Z.eqb_spec Byte 10) as [->|H10]; cbn [orb negb andb].
        -- destruct (Z.eqb_spec (nPrinterBufferChars s) 2048);
             repeat split; auto; try lia; try discriminate.
        -- assert (Hp : (32 <=? Byte) && (Byte <? 127) = true)
             by (unfold is_line_break, is_printable in Hplain; lia).
           rewrite Hp, wrap_int_id by (unfold INT_MIN, INT_MAX in *; lia).
           destruct (Z.eqb_spec (nPrinterBufferChars s) 2048);
             repeat split; auto; try lia; try discriminate.
    + apply ValidByte_false in Hv.
      assert (Hshow : (Byte =? 13) || (Byte =? 10) || ((32 <=? Byte) && (Byte <? 127)) = false)
        by (unfold is_line_break, is_printable in Hv; lia).
      assert (H13 : (Byte =? 13) = false) by (unfold is_line_break in Hv; lia).
      assert (Hp : (32 <=? Byte) && (Byte <? 127) = false)
        by (unfold is_printable in Hv; lia).
      unfold buffer_byte.
      assert (Hv' : Printer_ValidByte Byte = false) by (apply ValidByte_false; exact Hv).
      rewrite Hv', Hshow, H13, Hp, !app_nil_r. repeat split; auto; lia.
Qed.

Lemma column_after_range col Byte :
  0 <= col -> 0 <= column_after col Byte <= col + 8.
Proof.
  intros Hcol. unfold column_after.
  pose proof (Z.mod_pos_bound col 8 ltac:(lia)).
  destruct (Byte =? 9), (Byte =? 13), ((32 <=? Byte) && (Byte <? 127)); lia.
Qed.

(** [buffer_byte_spec] again, with the exact condition on the column: it
    is a count, and the byte does not take it beyond INT_MAX. *)
Lemma buffer_byte_exact e Byte s :
  open_ok s ->
  0 <= nPrinterBufferCharsOnLine s ->
  column_after (nPrinterBufferCharsOnLine s) Byte <= INT_MAX ->
  let s' := buffer_byte e Byte s in
  open_ok s'
  /\ buffered s' = (if flushes_first Byte s then [] else buffered s)
                   ++ printed (nPrinterBufferCharsOnLine s) Byte
  /\ flushed (io_log s') = flushed (io_log s)
                           ++ (if flushes_first Byte s then [buffered s] else [])
  /\ nPrinterBufferCharsOnLine s' = column_after (nPrinterBufferCharsOnLine s) Byte.
Proof.
  intros Hok Hcol Hafter.
  destruct (Z_le_gt_dec (nPrinterBufferCharsOnLine s) (INT_MAX - 8)) as [Hsmall|Hbig].
  - destruct (buffer_byte_spec e Byte s Hok ltac:(lia)) as (H1 & H2 & H3 & _ & H5).
    cbn zeta. auto.
  - destruct Hok as (Hc & Hf & Hlen & Hn). cbn zeta.
    destruct (buffer_byte_frame e Byte s) as (Hc' & Hf' & _ & Hlen').
    unfold open_ok. rewrite Hc', Hf', Hlen'.
    revert Hafter. unfold flushes_first, printed, column_after.
    destruct (Z.eqb_spec Byte 9) as [->|H9]; intros Hafter.
    + rewrite buffer_byte_tab.
      destruct (AddTab_spec e s Hf Hlen ltac:(lia) Hcol) as (Hk & Hn' & Hb' & Hfl & Hcol').
      rewrite Hn', Hb', Hfl, Hcol'.
      rewrite wrap_int_id by (unfold INT_MIN, INT_MAX in *; lia).
      unfold PRINTER_BUFFER_SIZE, PRINTER_TAB_SETTING in *.
      destruct (Z.leb_spec (2048 - 8) (nPrinterBufferChars s));
        repeat split; auto; lia.
    + destruct (Printer_ValidByte Byte) eqn:Hv.
      * apply ValidByte_true in Hv.
        assert (Hplain : is_line_break Byte \/ is_printable Byte) by tauto.
        rewrite buffer_byte_plain by assumption.
        destruct (AddByte_spec e Byte s Hf Hlen Hn) as (Hn' & Hb' & Hfl & _ & Hcol').
        assert (Hset : forall c t, buffered (set_nPrinterBufferCharsOnLine c t) = buffered t
                         /\ nPrinterBufferChars (set_nPrinterBufferCharsOnLine c t)
                            = nPrinterBufferChars t
                         /\ io_log (set_nPrinterBufferCharsOnLine c t) = io_log t)
          by (intros c t; repeat split).
        assert (Hshow : (Byte =? 13) || (Byte =? 10) || ((32 <=? Byte) && (Byte <? 127))
                        = true)
          by (unfold is_line_break, is_printable in Hplain; lia).
        rewrite Hshow.
        unfold PRINTER_BUFFER_SIZE in *.
        destruct (Z.eqb_spec Byte 13) as [->|H13].
        -- destruct (Hset 0 (Printer_AddByteToInternalBuffer e 13 s)) as (-> & -> & ->).
           rewrite Hn', Hb', Hfl.
           destruct (Z.eqb_spec (nPrinterBufferChars s) 2048); repeat split; auto; lia.
        -- rewrite Hn', Hb', Hfl, Hcol'.
           destruct (Z.eqb_spec Byte 10) as [->|H10]; cbn [orb negb andb].
           ++ destruct (Z.eqb_spec (nPrinterBufferChars s) 2048); repeat split; auto; lia.
           ++ assert (Hp : (32 <=? Byte) && (Byte <? 127) = true)
                by (unfold is_line_break, is_printable in Hplain; lia).
              rewrite Hp in Hafter |- *.
              rewrite wrap_int_id by (unfold INT_MIN, INT_MAX in *; lia).
              destruct (Z.eqb_spec (nPrinterBufferChars s) 2048); repeat split; auto; lia.
      * apply ValidByte_false in Hv.
        assert (Hshow : (Byte =? 13) || (Byte =? 10) || ((32 <=? Byte) && (Byte <? 127))
                        = false)
          by (unfold is_line_break, is_printable in Hv; lia).
        assert (H13 : (Byte =? 13) = false) by (unfold is_line_break in Hv; lia).
        assert (Hp : (32 <=? Byte) && (Byte <? 127) = false)
          by (unfold is_printable in Hv; lia).
        unfold buffer_byte.
        assert (Hv' : Printer_ValidByte Byte = false) by (apply ValidByte_false; exact Hv).
        rewrite Hv', Hshow, H13, Hp, !app_nil_r. repeat split; auto; lia.
Qed.

Lemma accept_all_stream e : forall bs s,
  bEnablePrinting e = true ->
  open_ok s ->
  0 <= nPrinterBufferCharsOnLine s ->
  column_within_int (nPrinterBufferCharsOnLine s) bs ->
  let s' := accept_all e bs s in
  open_ok s'
  /\ stream s' = stream s ++ expand (nPrinterBufferCharsOnLine s) bs
  /\ 0 <= nPrinterBufferCharsOnLine s'.
Proof.
  induction bs as [|b bs IH]; intros s He Hok Hcol Hfit; cbn zeta.
  - cbn. rewrite app_nil_r. auto.
  - destruct Hfit as [Hb Hfit]. unfold accept_all. cbn [map run step].
    rewrite transfer_connected by (assumption || apply Hok). cbn [snd].
    destruct (buffer_byte_exact e b s Hok Hcol Hb) as (Hok1 & Hb1 & Hfl1 & Hcol1).
    pose proof (column_after_range (nPrinterBufferCharsOnLine s) b Hcol) as Hr.
    fold (accept_all e bs (buffer_byte e b s)).
    rewrite <- Hcol1 in Hfit.
    destruct (IH (buffer_byte e b s) He Hok1 ltac:(lia) Hfit) as (Hok' & Hs' & Hcol').
    split; [exact Hok'|]. split; [|exact Hcol'].
    rewrite Hs', Hcol1. cbn [expand]. unfold stream at 1.
    rewrite Hb1, Hfl1, concat_app. unfold stream.
    destruct (flushes_first b s); cbn [concat]; rewrite ?app_nil_r, <- ?app_assoc;
      reflexivity.
Qed.

(** X1: on an open connection whose column is a count, whatever bytes are
    sent, as long as none of them takes the column beyond INT_MAX, what has
    been handed to [fwrite] followed by what is in the buffer grows by
    exactly the text those bytes stand for: the bytes in the order sent,
    each tab replaced by its spaces, the discarded bytes left out.  No byte
    is lost, doubled or moved by the flushes that happen on the way. *)
Theorem stream_in_order (e : Env) (bs : list Z) (s : State) :
  bEnablePrinting e = true ->
  open_ok s ->
  0 <= nPrinterBufferCharsOnLine s ->
  column_within_int (nPrinterBufferCharsOnLine s) bs ->
  stream (accept_all e bs s) = stream s ++ expand (nPrinterBufferCharsOnLine s) bs.
Proof. intros He Hok Hcol Hfit. apply (accept_all_stream e bs s He Hok Hcol Hfit). Qed.

Lemma stream_in_order_witness :
  stream (accept_all env_ok [65; 66; 9; 67; 13; 10] connected_empty)
  = [65; 66; 32; 32; 32; 32; 32; 32; 67; 13; 10].
Proof.
  apply (stream_in_order env_ok [65; 66; 9; 67; 13; 10] connected_empty).
  - reflexivity.
  - unfold open_ok, PRINTER_BUFFER_SIZE. cbn. repeat split; lia.
  - cbn. lia.
  - vm_compute. intuition discriminate.
Defined.

(** Carriage returns without end: the column stays at 0, whatever their
    number. *)
Lemma carriage_returns_within_int (k : nat) : column_within_int 0 (replicate k 13).
Proof.
  induction k as [|k IH]; [exact I|].
  cbn [replicate column_within_int]. change (column_after 0 13) with 0.
  split; [unfold INT_MAX; lia | exact IH].
Qed.

(** ** Flushing loses nothing *)

Lemma flush_stream e s :
  sink_inv s -> stream (snd (Printer_EmptyInternalBuffer e s)) = stream s.
Proof.
  intros (Hfc & Hn & Hd).
  destruct (Z.ltb_spec 0 (nPrinterBufferChars s)) as [Hpos|Hle].
  - assert (Hf : bPrinterFile s = true).
    { destruct (bConnectedPrinter s) eqn:Hc; [exact Hfc|]. specialize (Hd eq_refl). lia. }
    destruct (flush_open e s Hf Hpos) as (H0 & Hfl & _).
    unfold stream, buffered at 1. rewrite H0, Hfl, concat_app. cbn.
    rewrite !app_nil_r. reflexivity.
  - rewrite flush_empty by lia. reflexivity.
Qed.

Lemma close_stream e s :
  sink_inv s -> stream (Printer_CloseAllConnections e s) = stream s.
Proof.
  intros Hinv. rewrite <- (flush_stream e s Hinv).
  unfold Printer_CloseAllConnections, Printer_CloseFile.
  destruct (bPrinterFile _); [|reflexivity].
  unfold stream. cbn. rewrite flushed_app. cbn. rewrite app_nil_r. reflexivity.
Qed.

Lemma tick_stream e s :
  sink_inv s -> stream (Printer_CheckIdleStatus e s) = stream s.
Proof.
  intros Hinv. unfold Printer_CheckIdleStatus.
  pose proof (flush_stream e s Hinv) as Hfl.
  pose proof (flush_inv e s Hinv) as Hinv1.
  destruct (Printer_EmptyInternalBuffer e s) as [r s1]. cbn [snd] in *.
  destruct r; [exact Hfl|].
  destruct (_ >=? _); [|exact Hfl].
  change (stream (set_nIdleCount 0 ?t)) with (stream t).
  rewrite (close_stream e (set_nIdleCount (wrap_int (nIdleCount s1 + 1)) s1)) by exact Hinv1.
  exact Hfl.
Qed.

(** X2: in every state reached from [Printer_initial], an idle check, a
    flush and a close leave that stream as it is: what they take out of the
    buffer they hand to [fwrite]. *)
Theorem flushing_keeps_stream (ops : list Op) (e : Env) :
  let s := run ops Printer_initial in
  stream (step (OpTick e) s) = stream s
  /\ stream (step (OpFlush e) s) = stream s
  /\ stream (step (OpClose e) s) = stream s.
Proof.
  cbn zeta. pose proof (run_inv ops Printer_initial initial_inv) as Hinv.
  cbn [step]. split; [apply tick_stream; exact Hinv|].
  split; [apply flush_stream | apply close_stream]; exact Hinv.
Qed.

(** ** The file handle *)

Lemma handle_after_app l1 : forall l2 o,
  handle_after o (l1 ++ l2)
  = match handle_after o l1 with Some o' => handle_after o' l2 | None => None end.
Proof.
  induction l1 as [|ev l1 IH]; intros l2 o; [reflexivity|].
  destruct ev, o; cbn; auto.
Qed.

Lemma flush_handle e s : handle_ok s -> handle_ok (snd (Printer_EmptyInternalBuffer e s)).
Proof.
  unfold handle_ok. intros H. unfold_printer.
  destruct (0 <? nPrinterBufferChars s); cbn; [|exact H].
  destruct (bPrinterFile s) eqn:Hf; cbn; [|rewrite Hf; exact H].
  destruct (Z.of_nat _ <? _); cbn; rewrite <- ?app_assoc, handle_after_app, H, ?Hf;
    reflexivity.
Qed.

Lemma CloseFile_handle s : handle_ok s -> handle_ok (Printer_CloseFile s).
Proof.
  unfold handle_ok, Printer_CloseFile. intros H.
  destruct (bPrinterFile s) eqn:Hf; [|rewrite Hf; exact H].
  cbn. rewrite handle_after_app, H, ?Hf. reflexivity.
Qed.

Lemma close_handle e s : handle_ok s -> handle_ok (Printer_CloseAllConnections e s).
Proof.
  intros H. unfold Printer_CloseAllConnections.
  apply (CloseFile_handle _ (flush_handle e s H)).
Qed.

Lemma buffer_byte_handle e Byte s : handle_ok s -> handle_ok (buffer_byte e Byte s).
Proof.
  intros H. unfold buffer_byte. destruct (Printer_ValidByte Byte); [|exact H].
  assert (Ha : handle_ok (if Byte =? 9 then Printer_AddTabToInternalBuffer e s
                          else Printer_AddByteToInternalBuffer e Byte s)).
  { destruct (Byte =? 9).
    - unfold Printer_AddTabToInternalBuffer, handle_ok.
      set (s1 := if _ >=? _ then _ else s).
      destruct (add_spaces_frame (Z.to_nat (NumSpaces s1)) s1) as (_ & -> & _ & -> & _).
      subst s1. destruct (_ >=? _); [apply flush_handle|]; exact H.
    - unfold Printer_AddByteToInternalBuffer.
      set (s1 := if _ =? _ then _ else s).
      assert (H1 : handle_ok s1)
        by (subst s1; destruct (_ =? _); [apply flush_handle|]; exact H).
      destruct (negb _); exact H1. }
  destruct (Byte =? 13); exact Ha.
Qed.

Lemma accept_handle e Byte s :
  sink_inv s -> handle_ok s -> handle_ok (snd (Printer_TransferByteTo e Byte s)).
Proof.
  intros (Hfc & _) H.
  destruct (bEnablePrinting e) eqn:He;
    [|rewrite transfer_disabled by assumption; exact H].
  destruct (bConnectedPrinter s) eqn:Hc.
  - rewrite transfer_connected by assumption. apply buffer_byte_handle, H.
  - rewrite transfer_connecting by assumption. cbn zeta.
    assert (H1 : handle_ok (Printer_ResetCharsOnLine (Printer_ResetInternalBuffer
                   (set_bConnectedPrinter (fopen_ok e)
                      (set_bPrinterFile (fopen_ok e) (emit (EvFopen (fopen_ok e)) s)))))).
    { unfold handle_ok in *. cbn. rewrite handle_after_app, H, Hfc. reflexivity. }
    destruct (fopen_ok e); cbn [snd]; [apply buffer_byte_handle|]; exact H1.
Qed.

Lemma tick_handle e s : handle_ok s -> handle_ok (Printer_CheckIdleStatus e s).
Proof.
  intros H. unfold Printer_CheckIdleStatus.
  pose proof (flush_handle e s H) as Hfl.
  destruct (Printer_EmptyInternalBuffer e s) as [r s1]. cbn [snd] in Hfl.
  destruct r; [exact Hfl|].
  destruct (_ >=? _); [|exact Hfl].
  apply (close_handle e (set_nIdleCount (wrap_int (nIdleCount s1 + 1)) s1)). exact Hfl.
Qed.

Lemma run_handle ops : forall s, sink_inv s -> handle_ok s -> handle_ok (run ops s).
Proof.
  induction ops as [|o ops IH]; intros s Hinv H; [exact H|].
  cbn [run]. apply IH; [apply step_inv, Hinv|].
  destruct o as [e b|e|e|e|]; cbn [step].
  - apply accept_handle; assumption.
  - apply tick_handle, H.
  - apply flush_handle, H.
  - apply close_handle, H.
  - exact H.
Qed.

(** X3: on every run from [Printer_initial] the C library is called in
    order: [fopen] only while no file is open, [fwrite] and [fclose] only
    on an open file; and [bPrinterFile] tells at every moment whether the
    file is open. *)
Theorem file_handle_discipline (ops : list Op) :
  handle_after false (io_log (run ops Printer_initial))
  = Some (bPrinterFile (run ops Printer_initial)).
Proof. apply (run_handle ops Printer_initial initial_inv). reflexivity. Qed.

(** ** More on the idle check *)

Lemma buffer_byte_idle e Byte s : nIdleCount (buffer_byte e Byte s) = nIdleCount s.
Proof. apply (buffer_byte_frame e Byte s). Qed.

Lemma accept_idle e Byte s :
  nIdleCount (snd (Printer_TransferByteTo e Byte s)) = nIdleCount s.
Proof.
  destruct (bEnablePrinting e) eqn:He;
    [|rewrite transfer_disabled by assumption; reflexivity].
  destruct (bConnectedPrinter s) eqn:Hc.
  - rewrite transfer_connected by assumption. apply buffer_byte_idle.
  - rewrite transfer_connecting by assumption. cbn zeta.
    destruct (fopen_ok e); cbn [snd]; [rewrite buffer_byte_idle|]; reflexivity.
Qed.

Lemma close_idle e s : nIdleCount (Printer_CloseAllConnections e s) = nIdleCount s.
Proof.
  unfold Printer_CloseAllConnections, Printer_CloseFile.
  destruct (flush_frame e s) as (_ & _ & _ & _ & Hi).
  destruct (bPrinterFile _); cbn; exact Hi.
Qed.

Lemma tick_idle_range e s :
  0 <= nIdleCount s < PRINTER_IDLE_CLOSE ->
  0 <= nIdleCount (Printer_CheckIdleStatus e s) < PRINTER_IDLE_CLOSE.
Proof.
  unfold PRINTER_IDLE_CLOSE. intros Hi. unfold Printer_CheckIdleStatus.
  destruct (flush_frame e s) as (_ & _ & _ & _ & Hidle).
  destruct (Printer_EmptyInternalBuffer e s) as [r s1]. cbn [snd] in Hidle.
  destruct r; [cbn; lia|].
  cbn [nIdleCount set_nIdleCount]. rewrite Hidle.
  rewrite wrap_int_id by (unfold INT_MIN, INT_MAX; lia).
  unfold PRINTER_IDLE_CLOSE.
  destruct (Z.geb_spec (nIdleCount s + 1) (4 * 50)); cbn; lia.
Qed.

(** X4: on every run from [Printer_initial], [nIdleCount] stays between 0
    and PRINTER_IDLE_CLOSE - 1 = 199. *)
Theorem idle_count_range (ops : list Op) :
  0 <= nIdleCount (run ops Printer_initial) < PRINTER_IDLE_CLOSE.
Proof.
  assert (H : forall s, 0 <= nIdleCount s < PRINTER_IDLE_CLOSE ->
                        0 <= nIdleCount (run ops s) < PRINTER_IDLE_CLOSE).
  { induction ops as [|o ops IH]; intros s Hs; [exact Hs|].
    cbn [run]. apply IH.
    destruct o as [e b|e|e|e|]; cbn [step].
    - rewrite accept_idle. exact Hs.
    - apply tick_idle_range, Hs.
    - destruct (flush_frame e s) as (_ & _ & _ & _ & ->). exact Hs.
    - rewrite close_idle. exact Hs.
    - exact Hs. }
  apply H. cbn. unfold PRINTER_IDLE_CLOSE. lia.
Qed.

Lemma tick_empties e s :
  sink_inv s -> nPrinterBufferChars (Printer_CheckIdleStatus e s) = 0.
Proof.
  intros (Hfc & Hn & Hd). unfold Printer_CheckIdleStatus.
  destruct (Z.ltb_spec 0 (nPrinterBufferChars s)) as [Hpos|Hle].
  - assert (Hf : bPrinterFile s = true).
    { destruct (bConnectedPrinter s) eqn:Hc; [exact Hfc|]. specialize (Hd eq_refl). lia. }
    destruct (flush_open e s Hf Hpos) as (H0 & _).
    unfold Printer_EmptyInternalBuffer in *.
    destruct (Z.ltb_spec 0 (nPrinterBufferChars s)); [|lia]. cbn [snd] in H0. exact H0.
  - rewrite flush_empty by lia.
    cbn [nIdleCount set_nIdleCount].
    destruct (_ >=? _); cbn [nPrinterBufferChars set_nIdleCount].
    + rewrite close_chars, flush_empty by (cbn; lia). cbn. lia.
    + lia.
Qed.

(** X5: whatever happened before, when an idle check returns nothing is
    left in the buffer. *)
Theorem tick_leaves_buffer_empty (ops : list Op) (e : Env) :
  nPrinterBufferChars (run (ops ++ [OpTick e]) Printer_initial) = 0.
Proof.
  rewrite run_app. cbn [run step].
  apply tick_empties, run_inv, initial_inv.
Qed.

(** The count-down from an empty buffer. *)
Lemma idle_countdown es s :
  nPrinterBufferChars s = 0 -> nIdleCount s = 0 -> bConnectedPrinter s = true ->
  (Z.of_nat (length es) = PRINTER_IDLE_CLOSE ->
     bConnectedPrinter (ticks es s) = false /\ nIdleCount (ticks es s) = 0)
  /\ (Z.of_nat (length es) < PRINTER_IDLE_CLOSE -> bConnectedPrinter (ticks es s) = true).
Proof.
  intros Hn Hi Hc. split.
  - intros Hlen. induction es as [|e es' _] using rev_ind.
    + cbn in Hlen. unfold PRINTER_IDLE_CLOSE in Hlen. lia.
    + rewrite length_app in Hlen. cbn [length] in Hlen.
      rewrite ticks_app, (ticks_idle es' s) by (unfold PRINTER_IDLE_CLOSE in *; lia).
      unfold ticks. cbn [map run step].
      destruct (tick_closes e (set_nIdleCount (nIdleCount s + Z.of_nat (length es')) s))
        as (H1 & _ & H2); [exact Hn | cbn [nIdleCount set_nIdleCount]; lia | auto].
  - intros Hlen. rewrite ticks_idle by (unfold PRINTER_IDLE_CLOSE in *; lia). exact Hc.
Qed.

(** X6: on an open connection with bytes waiting, the first idle check
    writes them out and leaves the connection open; it is closed by the
    200th idle check after that one, and not before. *)
Theorem idle_close_after_data (e : Env) (es : list Env) (s : State) :
  bConnectedPrinter s = true ->
  bPrinterFile s = true ->
  0 < nPrinterBufferChars s ->
  bConnectedPrinter (ticks [e] s) = true
  /\ flushed (io_log (ticks [e] s)) = flushed (io_log s) ++ [buffered s]
  /\ (Z.of_nat (length es) = PRINTER_IDLE_CLOSE ->
      bConnectedPrinter (ticks (e :: es) s) = false
      /\ nIdleCount (ticks (e :: es) s) = 0)
  /\ (Z.of_nat (length es) < PRINTER_IDLE_CLOSE ->
      bConnectedPrinter (ticks (e :: es) s) = true).
Proof.
  intros Hc Hf Hn.
  assert (H1 : ticks [e] s = set_nIdleCount 0 (snd (Printer_EmptyInternalBuffer e s)))
    by (unfold ticks; cbn [map run step]; apply tick_flushes; exact Hn).
  destruct (flush_open e s Hf Hn) as (H0 & Hfl & _ & _ & Hc' & _).
  change (ticks (e :: es) s) with (ticks es (ticks [e] s)).
  rewrite H1.
  cbn [bConnectedPrinter io_log set_nIdleCount]. rewrite Hc', Hfl, Hc.
  split; [reflexivity|]. split; [reflexivity|].
  destruct (idle_countdown es (set_nIdleCount 0 (snd (Printer_EmptyInternalBuffer e s))))
    as [Hclose Hopen]; auto.
  cbn. rewrite Hc'. exact Hc.
Qed.

Lemma idle_close_after_data_witness :
  bConnectedPrinter (ticks (env_ok :: replicate 200 env_ok) (connected_with 3 3)) = false
  /\ bConnectedPrinter (ticks (env_ok :: replicate 199 env_ok) (connected_with 3 3)) = true.
Proof.
  destruct (idle_close_after_data env_ok (replicate 200 env_ok) (connected_with 3 3))
    as (_ & _ & H200 & _); try reflexivity.
  destruct (idle_close_after_data env_ok (replicate 199 env_ok) (connected_with 3 3))
    as (_ & _ & _ & H199); try reflexivity.
  split; [apply H200; reflexivity | apply H199; reflexivity].
Defined.

(** ** Making the connection *)

(** X7: [Printer_TransferByteTo] returns TRUE exactly when printing is
    enabled and the printer is connected when it returns. *)
Theorem transfer_result_is_connection (e : Env) (Byte : Z) (s : State) :
  fst (Printer_TransferByteTo e Byte s)
  = bEnablePrinting e && bConnectedPrinter (snd (Printer_TransferByteTo e Byte s)).
Proof.
  destruct (bEnablePrinting e) eqn:He;
    [|rewrite transfer_disabled by assumption; reflexivity].
  destruct (bConnectedPrinter s) eqn:Hc.
  - rewrite transfer_connected by assumption. cbn [fst snd].
    destruct (buffer_byte_frame e Byte s) as (-> & _). rewrite Hc. reflexivity.
  - rewrite transfer_connecting by assumption. cbn zeta.
    destruct (fopen_ok e); cbn [fst snd]; [|reflexivity].
    match goal with |- _ = _ && bConnectedPrinter (buffer_byte _ _ ?s1) =>
      destruct (buffer_byte_frame e Byte s1) as (-> & _) end.
    reflexivity.
Qed.

(** X8: as long as printing is disabled at every transfer, a run from
    [Printer_initial] calls nothing in the C library (no file is created),
    stays disconnected and buffers nothing. *)
Theorem disabled_run_is_silent (ops : list Op) :
  Forall (fun o => match o with
                   | OpAcceptByte e _ => bEnablePrinting e = false
                   | _ => True
                   end) ops ->
  io_log (run ops Printer_initial) = []
  /\ bConnectedPrinter (run ops Printer_initial) = false
  /\ nPrinterBufferChars (run ops Printer_initial) = 0.
Proof.
  assert (H : forall s,
    Forall (fun o => match o with
                     | OpAcceptByte e _ => bEnablePrinting e = false
                     | _ => True
                     end) ops ->
    bConnectedPrinter s = false -> bPrinterFile s = false -> nPrinterBufferChars s = 0 ->
    io_log (run ops s) = io_log s
    /\ bConnectedPrinter (run ops s) = false
    /\ nPrinterBufferChars (run ops s) = 0).
  { induction ops as [|o ops IH]; intros s Hall Hc Hf Hn; [cbn; auto|].
    apply Forall_cons in Hall. destruct Hall as [Ho Hall].
    cbn [run].
    assert (Hstep : io_log (step o s) = io_log s
                    /\ bConnectedPrinter (step o s) = false
                    /\ bPrinterFile (step o s) = false
                    /\ nPrinterBufferChars (step o s) = 0).
    { destruct o as [e b|e|e|e|]; cbn [step].
      - rewrite transfer_disabled by exact Ho. auto.
      - unfold Printer_CheckIdleStatus. rewrite flush_empty by lia.
        destruct (_ >=? _); [|cbn; auto].
        rewrite close_closed by assumption. cbn. auto.
      - rewrite flush_empty by lia. auto.
      - rewrite close_closed by assumption. auto.
      - cbn. auto. }
    destruct Hstep as (Hl & Hc' & Hf' & Hn').
    destruct (IH (step o s) Hall Hc' Hf' Hn') as (-> & -> & ->). auto. }
  intros Hall. apply (H Printer_initial Hall); reflexivity.
Qed.

Lemma disabled_run_is_silent_witness :
  io_log (run [OpAcceptByte (mkEnv false true (fun d => length d)) 65;
               OpTick env_ok; OpClose env_ok] Printer_initial) = [].
Proof.
  apply (disabled_run_is_silent
           [OpAcceptByte (mkEnv false true (fun d => length d)) 65;
            OpTick env_ok; OpClose env_ok]).
  repeat constructor.
Defined.

(** X9: while [fopen] fails, every transfer to a disconnected printer
    returns FALSE and tries [fopen] once more: k + 1 transfers make k + 1
    attempts and nothing else, and leave the printer disconnected with an
    empty buffer at column 0. *)
Theorem open_failure_retried (e : Env) (Byte : Z) (k : nat) (s : State) :
  bEnablePrinting e = true ->
  fopen_ok e = false ->
  bConnectedPrinter s = false ->
  let s' := run (replicate (S k) (OpAcceptByte e Byte)) s in
  fst (Printer_TransferByteTo e Byte s) = false
  /\ io_log s' = io_log s ++ replicate (S k) (EvFopen false)
  /\ bConnectedPrinter s' = false
  /\ bPrinterFile s' = false
  /\ nPrinterBufferChars s' = 0
  /\ nPrinterBufferCharsOnLine s' = 0.
Proof.
  intros He Hfail Hc. cbn zeta.
  split; [rewrite transfer_connecting, Hfail by assumption; reflexivity|].
  revert s Hc. induction k as [|k IH]; intros s Hc.
  - cbn [replicate run step]. rewrite transfer_connecting, Hfail by assumption.
    cbn. auto.
  - change (replicate (S (S k)) (OpAcceptByte e Byte))
      with (OpAcceptByte e Byte :: replicate (S k) (OpAcceptByte e Byte)).
    cbn [run step]. rewrite transfer_connecting, Hfail by assumption. cbn zeta. cbn [snd].
    match goal with |- io_log (run _ ?s1) = _ /\ _ =>
      destruct (IH s1 eq_refl) as (Hl & Hrest) end.
    split; [|exact Hrest].
    rewrite Hl. cbn [io_log Printer_ResetCharsOnLine Printer_ResetInternalBuffer
      set_bConnectedPrinter set_bPrinterFile set_nPrinterBufferChars
      set_nPrinterBufferCharsOnLine emit].
    rewrite <- app_assoc. reflexivity.
Qed.

Lemma open_failure_retried_witness :
  io_log (run (replicate 3 (OpAcceptByte (mkEnv true false (fun d => length d)) 65))
              Printer_initial)
  = [EvFopen false; EvFopen false; EvFopen false].
Proof.
  apply (open_failure_retried (mkEnv true false (fun d => length d)) 65 2 Printer_initial);
    reflexivity.
Defined.

(** X10: the transfer that makes the connection forgets the old buffer
    length and column: after it the buffer holds what the byte stands for at
    column 0 and nothing else, and [fopen] is the only call made. *)
Theorem connection_starts_fresh (e : Env) (Byte : Z) (s : State) :
  bEnablePrinting e = true ->
  fopen_ok e = true ->
  bConnectedPrinter s = false ->
  length (PrinterBuffer s) = 2048%nat ->
  let r := Printer_TransferByteTo e Byte s in
  fst r = true
  /\ io_log (snd r) = io_log s ++ [EvFopen true]
  /\ buffered (snd r) = printed 0 Byte
  /\ nPrinterBufferCharsOnLine (snd r) = column_after 0 Byte.
Proof.
  intros He Hok Hc Hlen. cbn zeta.
  rewrite transfer_connecting, Hok by assumption. cbn zeta. cbn [fst snd].
  set (s1 := Printer_ResetCharsOnLine _).
  assert (Hok1 : open_ok s1).
  { unfold open_ok, PRINTER_BUFFER_SIZE. subst s1. cbn. repeat split; auto; lia. }
  destruct (buffer_byte_spec e Byte s1 Hok1) as (_ & Hb & _ & Hlog & Hcol).
  { subst s1. unfold INT_MAX. cbn. lia. }
  assert (Hnf : flushes_first Byte s1 = false).
  { unfold flushes_first. subst s1. cbn.
    destruct (Byte =? 9); [reflexivity|]. destruct (Printer_ValidByte Byte); reflexivity. }
  rewrite Hnf in Hb. rewrite (Hlog Hnf), Hb, Hcol.
  subst s1. cbn. auto.
Qed.

Lemma connection_starts_fresh_witness :
  buffered (snd (Printer_TransferByteTo env_ok 9
                   (mkState (replicate 2048 65) 700 5 false false 0 [])))
  = replicate 8 32.
Proof.
  apply (connection_starts_fresh env_ok 9
           (mkState (replicate 2048 65) 700 5 false false 0 [])); reflexivity.
Defined.

(** ** Writing out *)

(** X11: a flush on an open file calls [fwrite] once with the buffered
    bytes; when [fwrite] reports fewer items than asked for, one message
    goes to stderr; in both cases the buffer is emptied and the write is not
    tried again. *)
Theorem short_write_reported_and_dropped (e : Env) (s : State) :
  bPrinterFile s = true ->
  0 < nPrinterBufferChars s ->
  let r := Printer_EmptyInternalBuffer e s in
  let ret := fwrite_ret e (buffered s) in
  fst r = true
  /\ io_log (snd r)
     = io_log s ++ EvFwrite (buffered s) ret
                   :: (if Z.of_nat ret <? nPrinterBufferChars s then [EvStderr] else [])
  /\ nPrinterBufferChars (snd r) = 0
  /\ buffered (snd r) = [].
Proof.
  intros Hf Hn. cbn zeta. unfold_printer.
  destruct (Z.ltb_spec 0 (nPrinterBufferChars s)); [|lia].
  rewrite Hf. cbn [fst snd].
  destruct (Z.of_nat _ <? _); cbn; rewrite <- ?app_assoc; auto.
Qed.

Lemma short_write_reported_and_dropped_witness :
  io_log (snd (Printer_EmptyInternalBuffer (mkEnv true true (fun _ => 2%nat))
                 (connected_with 3 3)))
  = [EvFwrite [65; 65; 65] 2; EvStderr].
Proof.
  apply (short_write_reported_and_dropped (mkEnv true true (fun _ => 2%nat))
           (connected_with 3 3)).
  - reflexivity.
  - cbn. lia.
Defined.

(** X12: closing while the file is open writes out what is buffered (if
    anything) and then closes the file: [fclose] is the last call, the
    buffer is empty and both flags are FALSE afterwards. *)
Theorem close_flushes_then_closes (e : Env) (s : State) :
  bPrinterFile s = true ->
  0 <= nPrinterBufferChars s ->
  let s' := Printer_CloseAllConnections e s in
  io_log s' = io_log (snd (Printer_EmptyInternalBuffer e s)) ++ [EvFclose]
  /\ flushed (io_log s')
     = flushed (io_log s) ++ (if 0 <? nPrinterBufferChars s then [buffered s] else [])
  /\ nPrinterBufferChars s' = 0
  /\ bConnectedPrinter s' = false
  /\ bPrinterFile s' = false.
Proof.
  intros Hf Hn. cbn zeta.
  destruct (close_closes e s) as [Hc' Hf'].
  rewrite close_chars, flush_chars, Hf, Hc', Hf'.
  unfold Printer_CloseAllConnections, Printer_CloseFile.
  destruct (flush_frame e s) as (_ & _ & _ & -> & _). rewrite Hf.
  cbn [io_log set_bConnectedPrinter set_bPrinterFile emit].
  rewrite flushed_app. cbn [flushed]. rewrite app_nil_r.
  destruct (Z.ltb_spec 0 (nPrinterBufferChars s)) as [Hpos|Hle]; cbn [andb].
  - destruct (flush_open e s Hf Hpos) as (_ & -> & _). auto.
  - rewrite flush_empty by lia. cbn [snd]. rewrite app_nil_r.
    repeat split; auto. lia.
Qed.

Lemma close_flushes_then_closes_witness :
  flushed (io_log (Printer_CloseAllConnections env_ok (connected_with 3 3)))
  = [[65; 65; 65]].
Proof.
  apply (close_flushes_then_closes env_ok (connected_with 3 3)).
  - reflexivity.
  - cbn. lia.
Defined.

(** ** Tab stops *)

Lemma AddTab_col e s :
  0 <= nPrinterBufferCharsOnLine s ->
  nPrinterBufferCharsOnLine (Printer_AddTabToInternalBuffer e s)
  = wrap_int (nPrinterBufferCharsOnLine s + (8 - nPrinterBufferCharsOnLine s mod 8)).
Proof.
  intros Hcol. unfold Printer_AddTabToInternalBuffer.
  set (s1 := if _ >=? _ then _ else s).
  assert (Hc1 : nPrinterBufferCharsOnLine s1 = nPrinterBufferCharsOnLine s).
  { subst s1. destruct (_ >=? _); [|reflexivity]. apply (flush_frame e s). }
  assert (Hk : NumSpaces s1 = 8 - nPrinterBufferCharsOnLine s mod 8).
  { unfold NumSpaces, PRINTER_TAB_SETTING, c_rem. rewrite Hc1.
    rewrite Z.rem_mod_nonneg by lia. reflexivity. }
  rewrite Hk.
  pose proof (Z.mod_pos_bound (nPrinterBufferCharsOnLine s) 8 ltac:(lia)).
  destruct (Z.to_nat (8 - nPrinterBufferCharsOnLine s mod 8)) as [|k] eqn:Hn; [lia|].
  rewrite add_spaces_col, Hc1. f_equal. lia.
Qed.

(** X13: on an open connection a tab moves the column to the next
    multiple of 8 strictly to the right (the column being a count at most
    INT_MAX - 8). *)
Theorem tab_reaches_next_stop (e : Env) (s : State) :
  bEnablePrinting e = true ->
  bConnectedPrinter s = true ->
  0 <= nPrinterBufferCharsOnLine s <= INT_MAX - 8 ->
  let col' := nPrinterBufferCharsOnLine (snd (Printer_TransferByteTo e 9 s)) in
  col' mod 8 = 0
  /\ nPrinterBufferCharsOnLine s < col' <= nPrinterBufferCharsOnLine s + 8.
Proof.
  intros He Hc Hcol. cbn zeta.
  rewrite transfer_connected by assumption. cbn [snd].
  rewrite buffer_byte_tab, AddTab_col by lia.
  pose proof (Z.mod_pos_bound (nPrinterBufferCharsOnLine s) 8 ltac:(lia)) as Hm.
  rewrite wrap_int_id by (unfold INT_MIN, INT_MAX in *; lia).
  split; [|lia].
  pose proof (Z.div_mod (nPrinterBufferCharsOnLine s) 8 ltac:(lia)) as Hd.
  replace (nPrinterBufferCharsOnLine s + (8 - nPrinterBufferCharsOnLine s mod 8))
    with ((nPrinterBufferCharsOnLine s / 8 + 1) * 8) by lia.
  apply Z.mod_mul. lia.
Qed.

Lemma tab_reaches_next_stop_witness :
  nPrinterBufferCharsOnLine (snd (Printer_TransferByteTo env_ok 9 (connected_with 3 13)))
    mod 8 = 0.
Proof.
  apply (tab_reaches_next_stop env_ok (connected_with 3 13)); try reflexivity.
  unfold INT_MAX. cbn. lia.
Defined.

(** ** The bound on runs of limited length *)

Lemma buffer_byte_col e Byte s :
  0 <= nPrinterBufferCharsOnLine s <= INT_MAX - 8 ->
  nPrinterBufferCharsOnLine (buffer_byte e Byte s)
  = column_after (nPrinterBufferCharsOnLine s) Byte.
Proof.
  intros Hcol. unfold buffer_byte, column_after.
  pose proof (Z.mod_pos_bound (nPrinterBufferCharsOnLine s) 8 ltac:(lia)) as Hm.
  destruct (Z.eqb_spec Byte 9) as [->|H9].
  - cbn. rewrite AddTab_col by lia. apply wrap_int_id. unfold INT_MIN, INT_MAX in *. lia.
  - destruct (Printer_ValidByte Byte) eqn:Hv.
    + destruct (Z.eqb_spec Byte 13) as [->|H13]; [reflexivity|].
      unfold Printer_AddByteToInternalBuffer.
      assert (Hc1 : nPrinterBufferCharsOnLine
                      (if nPrinterBufferChars s =? PRINTER_BUFFER_SIZE
                       then snd (Printer_EmptyInternalBuffer e s) else s)
                    = nPrinterBufferCharsOnLine s).
      { destruct (_ =? _); [|reflexivity]. apply (flush_frame e s). }
      apply ValidByte_true in Hv. unfold is_line_break, is_printable in Hv.
      destruct (Z.eqb_spec Byte 10) as [->|H10].
      * cbn. exact Hc1.
      * assert (Hp : (32 <=? Byte) && (Byte <? 127) = true) by lia.
        assert (H13' : (Byte =? 13) = false) by lia.
        rewrite Hp, H13'.
        cbn [negb orb nPrinterBufferCharsOnLine set_nPrinterBufferCharsOnLine
             store_and_advance set_nPrinterBufferChars set_PrinterBuffer].
        rewrite Hc1. apply wrap_int_id. unfold INT_MIN, INT_MAX in *. lia.
    + apply ValidByte_false in Hv. unfold is_line_break, is_printable in Hv.
      assert (H13 : (Byte =? 13) = false) by lia.
      assert (Hp : (32 <=? Byte) && (Byte <? 127) = false) by lia.
      rewrite H13, Hp. reflexivity.
Qed.

Lemma close_col e s :
  nPrinterBufferCharsOnLine (Printer_CloseAllConnections e s) = nPrinterBufferCharsOnLine s.
Proof.
  unfold Printer_CloseAllConnections, Printer_CloseFile.
  destruct (flush_frame e s) as (_ & Hcol & _).
  destruct (bPrinterFile _); cbn; exact Hcol.
Qed.

Lemma step_col_bound o s B :
  0 <= nPrinterBufferCharsOnLine s <= B -> B + 8 <= INT_MAX ->
  0 <= nPrinterBufferCharsOnLine (step o s) <= B + 8.
Proof.
  intros Hcol HB.
  assert (Hbyte : forall e b t, 0 <= nPrinterBufferCharsOnLine t <= B ->
                    0 <= nPrinterBufferCharsOnLine (buffer_byte e b t) <= B + 8).
  { intros e b t Ht. rewrite buffer_byte_col by lia.
    pose proof (column_after_range (nPrinterBufferCharsOnLine t) b ltac:(lia)). lia. }
  destruct o as [e b|e|e|e|]; cbn [step].
  - destruct (bEnablePrinting e) eqn:He;
      [|rewrite transfer_disabled by assumption; cbn; lia].
    destruct (bConnectedPrinter s) eqn:Hc.
    + rewrite transfer_connected by assumption. apply Hbyte, Hcol.
    + rewrite transfer_connecting by assumption. cbn zeta.
      destruct (fopen_ok e); cbn [snd]; [apply Hbyte|]; cbn; lia.
  - unfold Printer_CheckIdleStatus.
    destruct (flush_frame e s) as (_ & Hc1 & _).
    destruct (Printer_EmptyInternalBuffer e s) as [r s1]. cbn [snd] in Hc1.
    destruct r; [cbn; lia|].
    destruct (_ >=? _); cbn [nPrinterBufferCharsOnLine set_nIdleCount];
      rewrite ?close_col; cbn; lia.
  - destruct (flush_frame e s) as (_ & -> & _). lia.
  - rewrite close_col. lia.
  - cbn. lia.
Qed.

Lemma run_col_bound ops : forall s B,
  0 <= nPrinterBufferCharsOnLine s <= B ->
  B + 8 * Z.of_nat (length ops) <= INT_MAX ->
  column_counts ops s
  /\ 0 <= nPrinterBufferCharsOnLine (run ops s) <= B + 8 * Z.of_nat (length ops).
Proof.
  induction ops as [|o ops IH]; intros s B Hcol HB.
  - cbn. split; [exact I | lia].
  - cbn [length] in HB. cbn [run column_counts].
    pose proof (step_col_bound o s B Hcol ltac:(lia)) as Hstep.
    destruct (IH (step o s) (B + 8) Hstep ltac:(lia)) as [Hcc Hr].
    split; [split; [lia | exact Hcc]|]. cbn [length]. lia.
Qed.

(** X14: on every run from [Printer_initial] of at most INT_MAX / 8
    operations the buffer length stays within the capacity of 2048, and the
    column is a count of at most 8 per operation. *)
Theorem buffer_bounded_on_short_runs (ops : list Op) :
  8 * Z.of_nat (length ops) <= INT_MAX ->
  nPrinterBufferChars (run ops Printer_initial) <= PRINTER_BUFFER_SIZE
  /\ 0 <= nPrinterBufferCharsOnLine (run ops Printer_initial) <= 8 * Z.of_nat (length ops).
Proof.
  intros Hlen.
  destruct (run_col_bound ops Printer_initial 0) as [Hcc Hcol]; [cbn; lia | lia |].
  split; [|lia].
  apply run_keeps_bound; [apply initial_inv | reflexivity | | exact Hcc].
  cbn. unfold PRINTER_BUFFER_SIZE. lia.
Qed.

Lemma buffer_bounded_on_short_runs_witness :
  nPrinterBufferChars
    (run [OpAcceptByte env_ok 65; OpAcceptByte env_ok 9; OpTick env_ok] Printer_initial)
  <= PRINTER_BUFFER_SIZE.
Proof.
  apply (buffer_bounded_on_short_runs
           [OpAcceptByte env_ok 65; OpAcceptByte env_ok 9; OpTick env_ok]).
  unfold INT_MAX. cbn. lia.
Defined.

(** ** The file name *)

Lemma string_length_append a b :
  String.length (String.append a b) = (String.length a + String.length b)%nat.
Proof. induction a as [|c a IH]; [reflexivity|]. cbn. rewrite IH. reflexivity. Qed.

(** X16: [Printer_Init], for an array of more than 12 bytes holding a
    name that fits: the name it leaves is longer than one character and
    still fits with its terminator (also when HOME is too long, when the
    fallback is taken); a name longer than one character is kept; and a
    second call changes nothing. *)
Theorem Printer_Init_name (sizeof_name : nat) (HOME : option String.string)
    (szPrintToFileName : String.string) :
  (12 < sizeof_name)%nat ->
  (String.length szPrintToFileName < sizeof_name)%nat ->
  let name := Printer_Init sizeof_name HOME szPrintToFileName in
  (1 < String.length name < sizeof_name)%nat
  /\ ((1 < String.length szPrintToFileName)%nat -> name = szPrintToFileName)
  /\ Printer_Init sizeof_name HOME name = name.
Proof.
  intros Hsz Hlen. cbn zeta.
  assert (Hfit : (1 < String.length (Printer_Init sizeof_name HOME szPrintToFileName)
                    < sizeof_name)%nat).
  { unfold Printer_Init.
    destruct (Nat.leb_spec (String.length szPrintToFileName) 1); [|lia].
    destruct HOME as [home|]; [|cbn; lia].
    destruct (Nat.ltb_spec (String.length home + String.length PRINTER_FILENAME) sizeof_name).
    - rewrite string_length_append. cbn in *. lia.
    - cbn. lia. }
  split; [exact Hfit|]. split.
  - intros Hlong. unfold Printer_Init.
    destruct (Nat.leb_spec (String.length szPrintToFileName) 1); [lia | reflexivity].
  - unfold Printer_Init at 1.
    destruct (Nat.leb_spec
                (String.length (Printer_Init sizeof_name HOME szPrintToFileName)) 1);
      [lia | reflexivity].
Qed.

Lemma Printer_Init_name_witness :
  Printer_Init 4096 (Some "/home/st"%string) String.EmptyString = "/home/st/hatari.prn"%string
  /\ (1 < String.length (Printer_Init 4096 (Some "/home/st"%string) String.EmptyString) < 4096)%nat.
Proof.
  split; [reflexivity|].
  apply (Printer_Init_name 4096 (Some "/home/st"%string) String.EmptyString); cbn; lia.
Defined.

(** A run with a carriage return and a tab on which the column counts. *)
Lemma bounded_while_column_counts_witness :
  nPrinterBufferChars
    (run [OpAcceptByte env_ok 65; OpAcceptByte env_ok 13; OpAcceptByte env_ok 9]
         Printer_initial)
  <= PRINTER_BUFFER_SIZE.
Proof.
  apply (bounded_while_column_counts
           [OpAcceptByte env_ok 65; OpAcceptByte env_ok 13; OpAcceptByte env_ok 9]).
  vm_compute. intuition discriminate.
Defined.
